(** * contractpdf: a shallow embedding of [contractpdf.py]

    The module is a single FastAPI endpoint that validates a contract
    request, picks a boilerplate clause, has it refined by a text-completion
    service, substitutes it into a template, renders a PDF and uploads it.

    Python [str] values are modelled as lists of Unicode code points,
    dictionaries as finite maps, exceptions as values of an error monad and
    the external services as an explicit [World] of oracles. *)

From Stdlib Require Import String Ascii ZArith NArith QArith_base Lia DecimalString.
From stdpp Require Import base option list gmap.

Local Open Scope N_scope.

(** ** Python strings *)

(** A [str] is a sequence of code points. *)
Abbreviation str := (list N).

(** The line feed, written [\n] in the source. *)
Definition LF : N := 10.

(** [py "..."] denotes the Python literal with the same text.  The only
    escape sequence used by the string literals of the source is [\n]. *)
Fixpoint py (s : string) : str :=
  match s with
  | EmptyString => []
  | String "\"%char (String "n"%char s') => LF :: py s'
  | String c s' => N_of_ascii c :: py s'
  end.

(** Code points of the non-ASCII characters that occur in the source. *)
Definition RSQUO : N := 8217.   (* U+2019 right single quotation mark *)
Definition LDQUO : N := 8220.   (* U+201C left double quotation mark *)
Definition RDQUO : N := 8221.   (* U+201D right double quotation mark *)
Definition RUPEE : N := 8377.   (* U+20B9 indian rupee sign *)
Definition CHECK : N := 10003.  (* U+2713 check mark *)
Definition BULLET : N := 8226.  (* U+2022 bullet *)
Definition APOS : N := 39.      (* ' *)
Definition DQUOTE : N := 34.    (* the ASCII double quote *)

(** A dict display [{k1: v1, ..., kn: vn}] with string keys: the items are
    inserted from left to right. *)
Definition dict {V : Type} (items : list (str * V)) : gmap str V :=
  foldl (fun m kv => <[kv.1 := kv.2]> m) ∅ items.

(** [str(n)] for an [int]. *)
Definition str_of_int (z : Z) : str :=
  py (NilZero.string_of_int (Z.to_int z)).

(** [s.startswith(p)] *)
Fixpoint starts_with (p s : str) : bool :=
  match p, s with
  | [], _ => true
  | _ :: _, [] => false
  | a :: p', b :: s' => (a =? b) && starts_with p' s'
  end.

(** The [in] operator on strings: [p in s]. *)
Fixpoint contains (s p : str) : bool :=
  starts_with p s ||
  match s with
  | [] => false
  | _ :: s' => contains s' p
  end.

(** [p] occurs verbatim in [s]. *)
Definition substring_of (p s : str) : Prop :=
  exists l r : str, s = l ++ p ++ r.

(** ** Character categories of the [re] module

    For [str] patterns [\d] is the Unicode category Nd and [\s] is Unicode
    white space (the classes of [str.isdecimal] and [str.isspace]). *)

Definition in_ranges (t : list (N * N)) (c : N) : bool :=
  existsb (fun r => (fst r <=? c) && (c <=? snd r)) t.

(** The decimal digits of Unicode 14.0, by blocks. *)
Definition decimal_ranges : list (N * N) :=
  [ (48, 57); (1632, 1641); (1776, 1785); (1984, 1993); (2406, 2415);
    (2534, 2543); (2662, 2671); (2790, 2799); (2918, 2927); (3046, 3055);
    (3174, 3183); (3302, 3311); (3430, 3439); (3558, 3567); (3664, 3673);
    (3792, 3801); (3872, 3881); (4160, 4169); (4240, 4249); (6112, 6121);
    (6160, 6169); (6470, 6479); (6608, 6617); (6784, 6793); (6800, 6809);
    (6992, 7001); (7088, 7097); (7232, 7241); (7248, 7257); (42528, 42537);
    (43216, 43225); (43264, 43273); (43472, 43481); (43504, 43513);
    (43600, 43609); (44016, 44025); (65296, 65305); (66720, 66729);
    (68912, 68921); (69734, 69743); (69872, 69881); (69942, 69951);
    (70096, 70105); (70384, 70393); (70736, 70745); (70864, 70873);
    (71248, 71257); (71360, 71369); (71472, 71481); (71904, 71913);
    (72016, 72025); (72784, 72793); (73040, 73049); (73120, 73129);
    (92768, 92777); (92864, 92873); (93008, 93017); (120782, 120831);
    (123200, 123209); (123632, 123641); (125264, 125273); (130032, 130041) ].

Definition space_ranges : list (N * N) :=
  [ (9, 13); (28, 32); (133, 133); (160, 160); (5760, 5760); (8192, 8202);
    (8232, 8233); (8239, 8239); (8287, 8287); (12288, 12288) ].

Definition is_decimal (c : N) : bool := in_ranges decimal_ranges c.
Definition is_space (c : N) : bool := in_ranges space_ranges c.

(** ** Regular expressions

    The fragment of the [re] syntax that the source uses, and a
    backtracking matcher in continuation-passing style.  The matcher
    carries the number of characters consumed so far (for [^]) and the
    rest of the subject. *)

Inductive regex : Type :=
| AtBeginning                      (* ^ *)
| AtEnd                            (* $ *)
| Category (c : N -> bool)         (* \d, \s *)
| Literal (s : str)                (* year *)
| Seq (r1 r2 : regex)              (* r1 r2 *)
| Branch (r1 r2 : regex)           (* r1|r2 *)
| Plus (r : regex).                (* r+ *)

Fixpoint seq_of (rs : list regex) : regex :=
  match rs with
  | [] => Literal []
  | [r] => r
  | r :: rs' => Seq r (seq_of rs')
  end.

Fixpoint branch_of (r : regex) (rs : list regex) : regex :=
  match rs with
  | [] => r
  | r' :: rs' => Branch r (branch_of r' rs')
  end.

(** One or more repetitions of [body], each followed by another repetition
    or by the continuation.  A repetition that consumes nothing cannot lead
    to a new match, so [fuel] bounds the number of repetitions by the length
    of the subject. *)
Fixpoint repeat_run (body : (nat -> str -> bool) -> nat -> str -> bool)
    (k : nat -> str -> bool) (fuel : nat) (pos : nat) (s : str)
  {struct fuel} : bool :=
  match fuel with
  | O => false
  | S fuel' =>
      body (fun pos' s' => repeat_run body k fuel' pos' s' || k pos' s') pos s
  end.

Fixpoint re_run (r : regex) (k : nat -> str -> bool) (pos : nat) (s : str)
  {struct r} : bool :=
  match r with
  | AtBeginning => if Nat.eqb pos 0 then k pos s else false
  | AtEnd =>
      (* end of the subject, or just before a line feed that ends it *)
      match s with
      | [] => k pos s
      | [c] => if c =? LF then k pos s else false
      | _ => false
      end
  | Category c =>
      match s with
      | x :: s' => if c x then k (S pos) s' else false
      | [] => false
      end
  | Literal l =>
      if starts_with l s then k (pos + length l)%nat (drop (length l) s)
      else false
  | Seq r1 r2 => re_run r1 (re_run r2 k) pos s
  | Branch r1 r2 => re_run r1 k pos s || re_run r2 k pos s
  | Plus r' => repeat_run (re_run r') k (S (length s)) pos s
  end.

(** The words of a pattern without anchors: the usual semantics of
    regular expressions, against which the matcher is checked below. *)
Inductive lang : regex -> str -> Prop :=
| lang_category c x : c x = true -> lang (Category c) [x]
| lang_literal l : lang (Literal l) l
| lang_seq r1 r2 w1 w2 :
    lang r1 w1 -> lang r2 w2 -> lang (Seq r1 r2) (w1 ++ w2)
| lang_branch_l r1 r2 w : lang r1 w -> lang (Branch r1 r2) w
| lang_branch_r r1 r2 w : lang r2 w -> lang (Branch r1 r2) w
| lang_plus_once r w : lang r w -> lang (Plus r) w
| lang_plus_more r w1 w2 :
    lang r w1 -> lang (Plus r) w2 -> lang (Plus r) (w1 ++ w2).

Fixpoint nullable (r : regex) : bool :=
  match r with
  | AtBeginning | AtEnd => true
  | Category _ => false
  | Literal l => match l with [] => true | _ => false end
  | Seq r1 r2 => nullable r1 && nullable r2
  | Branch r1 r2 => nullable r1 || nullable r2
  | Plus r' => nullable r'
  end.

(** Patterns without anchors in which only patterns that consume input are
    repeated. *)
Fixpoint plain (r : regex) : bool :=
  match r with
  | AtBeginning | AtEnd => false
  | Category _ | Literal _ => true
  | Seq r1 r2 | Branch r1 r2 => plain r1 && plain r2
  | Plus r' => plain r' && negb (nullable r')
  end.

(** The continuation-passing reading of a pattern whose words are [L]. *)
Definition runs (L : str -> Prop)
    (f : (nat -> str -> bool) -> nat -> str -> bool) : Prop :=
  forall k pos s,
    f k pos s = true <->
    exists w rest, s = w ++ rest /\ L w /\ k (pos + length w)%nat rest = true.

(** [re.match(r, s)] is truthy: [r] matches a prefix of [s]. *)
Definition re_match (r : regex) (s : str) : bool :=
  re_run r (fun _ _ => true) 0%nat s.

(** [re.fullmatch(r, s)] is truthy: [r] matches all of [s]. *)
Definition re_fullmatch (r : regex) (s : str) : bool :=
  re_run r (fun _ rest => match rest with [] => true | _ => false end) 0%nat s.

Definition units : regex :=
  branch_of (Literal (py "year"))
    [Literal (py "years"); Literal (py "month"); Literal (py "months");
     Literal (py "day"); Literal (py "days")].

(** [\d+\s+(year|years|month|months|day|days)], the format as the
    specification words it, without anchors. *)
Definition duration_format : regex :=
  seq_of [Plus (Category is_decimal); Plus (Category is_space); units].

(** [^\d+\s+(year|years|month|months|day|days)$], the pattern of
    [validate_duration]. *)
Definition duration_pattern : regex :=
  seq_of [AtBeginning; Plus (Category is_decimal); Plus (Category is_space);
          units; AtEnd].


(** ** Values, exceptions and the error monad *)

(** A decoded JSON document, as [Response.json()] returns it.  The module
    inspects objects and strings only; numbers stand for themselves. *)
#[warnings="-register-all"]
Inductive json : Type :=
| JNull                            (* None *)
| JBool (b : bool)
| JNum (z : Z)
| JStr (s : str)
| JArr (l : list json)
| JObj (m : gmap str json).

(** [v == s] for a string [s]. *)
Definition json_eq_str (v : json) (s : str) : bool :=
  match v with
  | JStr s' => bool_decide (s' = s)
  | _ => false
  end.

(** The exceptions (subclasses of [Exception]) that the module raises or
    that reach it from the interpreter and the libraries. *)
Inductive exn : Type :=
| Exception (msg : str)            (* raise Exception(msg) *)
| ValueError (msg : str)           (* raise ValueError(msg) *)
| KeyError (key : str)             (* d[key], key not in d *)
| IndexError                       (* l[0], l empty *)
| TypeError (v : json)             (* v[key], v not a dict *)
| FileNotFoundError (name : str)   (* open(name), no such file *)
| AttributeError (v : json) (attr : str)   (* v.attr, v without attr *)
| LibraryError (msg : str).        (* raised inside a library call, str(e) = msg *)

Inductive result (A : Type) : Type :=
| Ok (a : A)
| Raise (e : exn).
Arguments Ok {A} a.
Arguments Raise {A} e.

(** ** The request model *)

(** The body of a request as it arrives: every field is a string or is
    absent. *)
Record RawRequest : Type := {
  raw_contract_type : option str;
  raw_party_a : option str;
  raw_party_b : option str;
  raw_duration : option str;
  raw_clause_query : option str;
  raw_property_address : option str;
  raw_position : option str;
  raw_goods_description : option str;
  raw_scope : option str;
  raw_jurisdiction : option str
}.

Record ContractRequest : Type := {
  contract_type : str;
  party_a : str;
  party_b : str;
  duration : str;
  clause_query : str;
  property_address : option str;      (* for lease *)
  position : option str;              (* for employment *)
  goods_description : option str;     (* for sales *)
  scope : option str;                 (* for noncompete *)
  jurisdiction : str
}.

(** The members of the [Literal] type of [contract_type]. *)
Definition contract_types : list str :=
  [py "nda"; py "contractor"; py "sla"; py "partnership";
   py "sales"; py "employment"; py "lease"; py "mou"; py "noncompete"].

Definition validate_party_names (v : str) : result str :=
  if bool_decide (v = []) || (length v <? 2)%nat then
    Raise (ValueError
             (py "Party names must be valid and at least 2 characters long"))
  else Ok v.

Definition validate_duration (v : str) : result str :=
  if negb (re_match duration_pattern v) then
    Raise (ValueError
             (py "Duration must be in format '# year/years/month/months/day/days'"))
  else Ok v.

(** What a [ValidationError] records about one field. *)
Inductive field_error : Type :=
| field_required                   (* a required field is absent *)
| unexpected_value                 (* not a member of the Literal type *)
| validator_error (e : exn).       (* raised by a validator of the class *)

(** Validation of one field: the declared type first, then the validators
    registered for the field. *)
Definition required_field (raw : option str) (validator : str -> result str)
  : field_error + str :=
  match raw with
  | None => inl field_required
  | Some v =>
      match validator v with
      | Ok v' => inr v'
      | Raise e => inl (validator_error e)
      end
  end.

Definition literal_field (members : list str) (raw : option str)
  : field_error + str :=
  match raw with
  | None => inl field_required
  | Some v => if bool_decide (v ∈ members) then inr v else inl unexpected_value
  end.

Definition field_errors {A : Type} (loc : str) (r : field_error + A)
  : list (str * field_error) :=
  match r with
  | inl e => [(loc, e)]
  | inr _ => []
  end.

(** Construction of a [ContractRequest] from a raw body: every field is validated, in the order of
    declaration; the request is built when no field failed, and a
    [ValidationError] listing the failed fields is raised otherwise. *)
Definition parse_obj (raw : RawRequest)
  : list (str * field_error) + ContractRequest :=
  let t := literal_field contract_types (raw_contract_type raw) in
  let a := required_field (raw_party_a raw) validate_party_names in
  let b := required_field (raw_party_b raw) validate_party_names in
  let d := required_field (raw_duration raw) validate_duration in
  let q := required_field (raw_clause_query raw) Ok in
  match t, a, b, d, q with
  | inr t', inr a', inr b', inr d', inr q' =>
      inr {| contract_type := t';
             party_a := a';
             party_b := b';
             duration := d';
             clause_query := q';
             property_address := raw_property_address raw;
             position := raw_position raw;
             goods_description := raw_goods_description raw;
             scope := raw_scope raw;
             jurisdiction := default (py "New Delhi") (raw_jurisdiction raw) |}
  | _, _, _, _, _ =>
      inl (field_errors (py "contract_type") t ++
           field_errors (py "party_a") a ++
           field_errors (py "party_b") b ++
           field_errors (py "duration") d ++
           field_errors (py "clause_query") q)
  end.

(** ** Clause retrieval *)

Definition specialized_clause_banks : gmap str (list str) :=
  dict [
    (py "nda",
     [
       py "All confidential information shall remain the exclusive property of the disclosing party and shall not be used for any purpose other than the intended business collaboration.";
       py "Breach of confidentiality shall result in liquidated damages of INR 10,00,000 and potential legal action under Information Technology Act, 2000.";
       py "Confidentiality obligations persist for five years post-termination of agreement."
     ]);
    (py "employment",
     [
       py "The employee agrees to abide by the company's code of conduct and intellectual property guidelines as per Indian labor laws.";
       py "Termination may occur with notice as specified in Industrial Disputes Act, 1947.";
       py "Dispute resolution through mandatory arbitration under Arbitration and Conciliation Act, 1996."
     ]);
    (py "noncompete",
     [
       py "The restricted period shall not exceed two years and shall be limited to the metropolitan areas where the employer conducts primary business.";
       py "Compensation shall be provided to the employee during the non-compete period as per legal standards.";
       py "The non-compete clause is subject to judicial review of reasonableness."
     ])
  ].

Definition default_clauses : list str :=
  [
    py "This Agreement shall be governed by the laws of India and subject to the jurisdiction of courts in New Delhi.";
    py "All disputes shall be resolved through arbitration under the Arbitration and Conciliation Act, 1996.";
    py "Each party shall bear its own legal costs unless otherwise specified by law."
  ].

Definition retrieve_clause (query : str) (contract_type : str) : result str :=
  let clauses := default default_clauses (specialized_clause_banks !! contract_type) in
  match clauses !! 0%nat with
  | Some c => Ok c
  | None => Raise IndexError
  end.

(** ** Clause refinement *)

Record prompt_config : Type := {
  context : str;
  requirements : list str;
  examples : list str
}.

Definition LEGAL_PROMPTS : gmap str prompt_config :=
  dict [
    (py "nda",
     {| context := py "Indian Contract Act 1872 + IT Act 2000 amendments";
        requirements := [
          py "Define 'Confidential Information' per Indian judicial precedents";
          py "Include mandatory arbitration clause per Arbitration Act 1996";
          py "Specify territorial jurisdiction (e.g., Delhi High Court)";
          py "Explicitly exclude publicly available information";
          py "Include return/destruction obligations post-termination"
        ];
        examples := [
          py "As per XYZ vs. ABC (2022), confidential information shall include...";
          py "Breach penalties not exceeding " ++ [RUPEE] ++ py "5,00,000 as per Section 73"
        ] |});
    (py "contractor",
     {| context := py "Indian Contract Act + Service Tax/GST provisions";
        requirements := [
          py "Clear distinction from employment relationship";
          py "IP ownership transfer clauses per Copyright Act 1957";
          py "Termination for convenience with notice period";
          py "Liability caps as per Indian standards";
          py "GST invoicing and TDS compliance"
        ];
        examples := [
          py "Contractor shall be responsible for their own GST compliance as per Section 22 of CGST Act";
          py "IP developed shall vest with client per Section 17 of Copyright Act"
        ] |});
    (py "sla",
     {| context := py "Consumer Protection Act 2019 + IT Act";
        requirements := [
          py "Quantifiable service metrics (e.g., 99.5% uptime)";
          py "Penalties for non-performance as liquidated damages";
          py "Force majeure clause covering Indian scenarios";
          py "Dispute resolution through Delhi arbitration";
          py "Exclusions for third-party failures"
        ];
        examples := [
          py "Service credits of 0.1% of monthly fee per 1% downtime below SLA";
          py "As per Amazon Web Services India vs. ACIT (2021)"
        ] |});
    (py "partnership",
     {| context := py "Indian Partnership Act 1932 + GST provisions";
        requirements := [
          py "Profit-sharing ratio with tax implications";
          py "Admission/retirement of partners procedure";
          py "Dissolution conditions as per Section 39";
          py "Bank account operation authority";
          py "Non-compete during partnership"
        ];
        examples := [
          py "Profits shall be shared 60:40 after accounting for interest on capital per Section 13(b)";
          py "Retiring partner liable for acts until public notice under Section 32"
        ] |});
    (py "sales",
     {| context := py "Sale of Goods Act 1930 + GST laws";
        requirements := [
          py "Clear passing of property/title clauses";
          py "Incoterms adapted for Indian logistics";
          py "GST invoicing and HSN code details";
          py "Inspection period (minimum 7 days)";
          py "Remedies for defective goods"
        ];
        examples := [
          py "Risk passes to buyer upon delivery at registered GST location";
          py "Defects must be reported within 15 days as per Section 55"
        ] |});
    (py "employment",
     {| context := py "New Labor Codes 2023 + Industrial Disputes Act";
        requirements := [
          py "Comply with 48-hour work week limits";
          py "Include PF/ESI/gratuity obligations";
          py "Termination notice period as per state laws";
          py "Non-solicitation restrictions";
          py "IP assignment clause"
        ];
        examples := [
          py "Notice period of 90 days as per Maharashtra Shops Act";
          py "Gratuity payable after 5 years continuous service under Payment of Gratuity Act"
        ] |});
    (py "lease",
     {| context := py "Transfer of Property Act 1882 + RERA";
        requirements := [
          py "RERA registration number if applicable";
          py "Maintenance charges breakdown";
          py "Lock-in period and renewal terms";
          py "Municipal tax liability";
          py "Eviction procedure per state laws"
        ];
        examples := [
          py "Lessee shall pay property tax within 15 days of receipt of bill";
          py "Security deposit not exceeding 3 months rent as per Delhi Rent Act"
        ] |});
    (py "mou",
     {| context := py "Indian Contract Act + Specific Relief Act";
        requirements := [
          py "Clear 'binding/non-binding' designation";
          py "Confidentiality obligations";
          py "Governing law clause";
          py "Termination notice period";
          py "No third-party rights"
        ];
        examples := [
          py "This MoU is not legally enforceable except for clauses 3-5";
          py "Subject to exclusive jurisdiction of Bangalore courts"
        ] |});
    (py "noncompete",
     {| context := py "Indian Contract Act Section 27 + recent judgments";
        requirements := [
          py "Geographic restriction (max: district level)";
          py "Time limit (max: 24 months)";
          py "Consideration for restriction";
          py "Industry-specific limitations";
          py "Garden leave clause if applicable"
        ];
        examples := [
          py "Non-compete limited to Pune Municipal Corporation area";
          py "Valid for 12 months with 50% salary continuation"
        ] |})
  ].

(** The call [client.chat.completions.create(...)] and what it returns:
    the [message.content] of every choice. *)
Record chat_message : Type := { role : str; content : str }.

Record completion_request : Type := {
  model : str;
  messages : list chat_message;
  temperature : Q;
  max_tokens : Z
}.

Abbreviation completion := (list (option str)).

(** [s.strip()] *)
Fixpoint lstrip (s : str) : str :=
  match s with
  | [] => []
  | c :: s' => if is_space c then lstrip s' else s
  end.

Definition rstrip (s : str) : str := reverse (lstrip (reverse s)).

Definition strip (s : str) : str := lstrip (rstrip s).

(** The prompt of [refine_clause_with_legal_expertise]; the lookup
    [LEGAL_PROMPTS[contract_type]] raises a [KeyError] for a type without
    configuration. *)
Definition refinement_prompt (clause : str) (contract_type : str) : result str :=
  match LEGAL_PROMPTS !! contract_type with
  | None => Raise (KeyError contract_type)
  | Some cfg =>
      Ok (py "As a Supreme Court of India registered contract lawyer, refine this "
          ++ contract_type
          ++ py " clause:\n\n**Original Clause**: " ++ clause
          ++ py "\n\n**Legal Framework**: " ++ context cfg
          ++ py "\n\n**Must Include**:\n"
          ++ concat (map (fun req => [CHECK] ++ py " " ++ req) (requirements cfg))
          ++ py "\n\n**Good Examples**:\n"
          ++ concat (map (fun ex => [BULLET] ++ py " " ++ ex) (examples cfg))
          ++ py "\n\n**Refinement Rules**:\n1. Use active voice with "
          ++ [DQUOTE] ++ py "Shall" ++ [DQUOTE]
          ++ py " for obligations\n2. Reference specific Indian statutes\n3. Include enforcement mechanism\n4. Maximum 3 sentences\n5. Use Rs. for penalties\n\nRefined Clause:")
  end.

(** ** Template generator *)

(** [f"{v}"] for an optional field: [None] is formatted as its name. *)
Definition fmt (v : option str) : str :=
  match v with
  | Some s => s
  | None => py "None"
  end.

Definition get_legal_template (data : ContractRequest) (clause : str) : str :=
  let A := party_a data in
  let B := party_b data in
  let D := duration data in
  let J := jurisdiction data in
  let T := contract_type data in
  let legal_templates : gmap str str := dict [
    (py "nda",
     py "NON-DISCLOSURE AGREEMENT\n\nThis Non-Disclosure Agreement is made between " ++ A ++ py " and " ++ B ++ py ".\n\n1. Term: " ++ D ++ py "\n2. Confidentiality: All information exchanged shall be kept confidential.\n3. Legal Clause: " ++ clause ++ py "\n4. Jurisdiction: Governed by the laws of India, jurisdiction in " ++ J ++ py ".\n\nSigned: " ++ A ++ py ", " ++ B);
    (py "contractor",
     py "INDEPENDENT CONTRACTOR AGREEMENT\n\nThis agreement is made between " ++ A ++ py " and " ++ B ++ py ".\n\n1. Duration: " ++ D ++ py "\n2. Role: Independent Contractor\n3. Legal Clause: " ++ clause ++ py "\n4. Jurisdiction: " ++ J ++ py "\n\nSigned: " ++ A ++ py ", " ++ B);
    (py "sla",
     py "SERVICE LEVEL AGREEMENT\n\nThis agreement is between " ++ A ++ py " and " ++ B ++ py ".\n\n1. Term: " ++ D ++ py "\n2. Services: As per annexure\n3. Legal Clause: " ++ clause ++ py "\n4. Jurisdiction: " ++ J ++ py "\n\nSigned: " ++ A ++ py ", " ++ B);
    (py "partnership",
     py "PARTNERSHIP AGREEMENT\n\nThis partnership is entered between " ++ A ++ py " and " ++ B ++ py ".\n\n1. Term: " ++ D ++ py "\n2. Terms: Equal stake and responsibility\n3. Legal Clause: " ++ clause ++ py "\n4. Jurisdiction: " ++ J ++ py "\n\nSigned: " ++ A ++ py ", " ++ B);
    (py "sales",
     py "SALES AGREEMENT\n\nThis agreement is made between " ++ A ++ py " (Seller) and " ++ B ++ py " (Buyer).\n\n1. Duration: " ++ D ++ py "\n2. Goods/Services: " ++ fmt (goods_description data) ++ py "\n3. Legal Clause: " ++ clause ++ py "\n4. Jurisdiction: " ++ J ++ py "\n\nSigned: " ++ A ++ py ", " ++ B);
    (py "employment",
     py "EMPLOYMENT AGREEMENT\n\nThis employment agreement is made between " ++ A ++ py " and " ++ B ++ py ".\n\n1. Position: " ++ fmt (position data) ++ py "\n2. Duration: " ++ D ++ py "\n3. Legal Clause: " ++ clause ++ py "\n4. Jurisdiction: " ++ J ++ py "\n\nSigned: " ++ A ++ py ", " ++ B);
    (py "lease",
     py "LEASE AGREEMENT\n\nThis agreement is made between " ++ A ++ py " (Lessor) and " ++ B ++ py " (Lessee).\n\n1. Property: " ++ fmt (property_address data) ++ py "\n2. Duration: " ++ D ++ py "\n3. Legal Clause: " ++ clause ++ py "\n4. Jurisdiction: " ++ J ++ py "\n\nSigned: " ++ A ++ py ", " ++ B);
    (py "mou",
     py "MEMORANDUM OF UNDERSTANDING\n\nThis MoU is entered into by " ++ A ++ py " and " ++ B ++ py ".\n\n1. Term: " ++ D ++ py "\n2. Understanding: As per mutual discussion\n3. Legal Clause: " ++ clause ++ py "\n4. Jurisdiction: " ++ J ++ py "\n\nSigned: " ++ A ++ py ", " ++ B);
    (py "noncompete",
     py "NON-COMPETE AGREEMENT\n\nThis agreement is between " ++ A ++ py " and " ++ B ++ py ".\n\n1. Duration: " ++ D ++ py "\n2. Scope: " ++ fmt (scope data) ++ py "\n3. Legal Clause: " ++ clause ++ py "\n4. Jurisdiction: " ++ J ++ py "\n\nSigned: " ++ A ++ py ", " ++ B)
  ] in
  default (py "Invalid contract type.") (legal_templates !! T).

(** ** PDF export *)

(** [s.replace(old, new)]: the occurrences of [old] are replaced from left
    to right, without overlap. *)
Fixpoint replace_from (old new : str) (skip : nat) (s : str) : str :=
  match s with
  | [] => []
  | c :: s' =>
      match skip with
      | S n => replace_from old new n s'
      | O =>
          if starts_with old s
          then new ++ replace_from old new (length old - 1) s'
          else c :: replace_from old new 0 s'
      end
  end.

Definition replace (s old new : str) : str :=
  match old with
  | [] => new ++ flat_map (fun c => c :: new) s
  | _ => replace_from old new 0 s
  end.

(** [s.split(sep)] for a separator of one character. *)
Fixpoint split (s : str) (sep : N) : list str :=
  match s with
  | [] => [[]]
  | c :: s' =>
      if c =? sep then [] :: split s' sep
      else match split s' sep with
           | l :: ls => (c :: l) :: ls
           | [] => [[c]]
           end
  end.

(** The pre-render normalization: the first statement of [save_as_pdf]. *)
Definition normalize (content : str) : str :=
  replace (replace (replace (replace content [RSQUO] [APOS])
                      [LDQUO] [DQUOTE])
             [RDQUO] [DQUOTE])
    [RUPEE] (py "Rs.").

(** The methods of [FPDF] that the module calls. *)
Inductive fpdf_call : Type :=
| set_auto_page_break (auto : bool) (margin : Z)
| add_page
| set_font (family style : str) (size : Z)
| set_text_color (r g b : Z)
| set_fill_color (r g b : Z)
| cell (w h : Z) (txt : str) (border ln : Z) (align : str)
| ln (h : Z)
| multi_cell (w h : Z) (txt : str).

(** The calls that [save_as_pdf] makes on a fresh [FPDF()] before it writes
    the file. *)
Definition pdf_document (content : str) : list fpdf_call :=
  let content := normalize content in
  [ set_auto_page_break true 15;
    add_page;
    set_font (py "Arial") [] 11;
    set_text_color 0 0 0;
    set_fill_color 240 240 240;
    set_font (py "Arial") (py "B") 16;
    cell 0 10 (py "LEGAL CONTRACT DOCUMENT") 0 1 (py "C");
    ln 10;
    set_font (py "Arial") [] 11 ]
  ++ map (fun line => multi_cell 0 8 line) (split content LF).

(** ** The environment of a request *)

(** The reply of the file-hosting service: [upload_res.status_code] and the
    outcome of [upload_res.json()]. *)
Record http_response : Type := {
  status_code : Z;
  json_result : result json
}.

(** Everything outside the module that a request depends on.  A rendered
    PDF file is represented by the FPDF calls that produced it. *)
Record World : Type := {
  (* client.chat.completions.create *)
  completions_create : completion_request -> result completion;
  (* uuid.uuid4().hex *)
  uuid4_hex : str;
  (* the exception, if any, raised while FPDF lays out and writes a file *)
  fpdf_raises : list fpdf_call -> str -> option exn;
  (* the exception, if any, raised by open(name, "rb") on an existing file *)
  open_raises : str -> option exn;
  (* requests.post(url, files={"file": f}), given the url and the name and
     the contents of the file f *)
  requests_post : str -> str -> list fpdf_call -> result http_response;
  (* str(e) for an exception raised by the interpreter itself *)
  builtin_text : exn -> str;
  (* str(v) for a decoded JSON value *)
  format_json : json -> str
}.

(** [str(e)] *)
Definition exn_str (w : World) (e : exn) : str :=
  match e with
  | Exception msg | ValueError msg | LibraryError msg => msg
  | _ => builtin_text w e
  end.

(** The files of the working directory, by name. *)
Abbreviation files := (gmap str (list fpdf_call)).

(** Computations that read and write files and may raise. *)
Definition M (A : Type) : Type := files -> result A * files.

#[export] Instance M_ret : MRet M := fun A a fs => (Ok a, fs).

#[export] Instance M_bind : MBind M := fun A B k m fs =>
  match m fs with
  | (Ok a, fs') => k a fs'
  | (Raise e, fs') => (Raise e, fs')
  end.

Definition raise {A : Type} (e : exn) : M A := fun fs => (Raise e, fs).

(** A step that does not touch the files. *)
Definition lift {A : Type} (r : result A) : M A := fun fs => (r, fs).

Definition refine_clause_with_legal_expertise (w : World)
    (clause : str) (contract_type : str) : M str :=
  prompt ← lift (refinement_prompt clause contract_type);
  response ← lift (completions_create w
                      {| model := py "gpt-3.5-turbo-16k";
                         messages := [ {| role := py "user"; content := prompt |} ];
                         temperature := 2 # 10;
                         max_tokens := 300 |});
  match response !! 0%nat with
  | None => raise IndexError
  | Some None => raise (AttributeError JNull (py "strip"))
  | Some (Some text) => mret (strip text)
  end.

Definition save_as_pdf (w : World) (content : str) (filename : str) : M unit :=
  let pdf := pdf_document content in
  match fpdf_raises w pdf filename with
  | Some e => raise e
  | None => fun fs => (Ok tt, <[filename := pdf]> fs)
  end.

(** [open(filename, "rb")] *)
Definition open_rb (w : World) (filename : str) : M (list fpdf_call) :=
  fun fs =>
    match fs !! filename with
    | None => (Raise (FileNotFoundError filename), fs)
    | Some f =>
        match open_raises w filename with
        | Some e => (Raise e, fs)
        | None => (Ok f, fs)
        end
    end.

(** [v.get(key)] *)
Definition get (v : json) (key : str) : result json :=
  match v with
  | JObj m => Ok (default JNull (m !! key))
  | _ => Raise (AttributeError v (py "get"))
  end.

(** [v[key]] for a string [key] *)
Definition getitem (v : json) (key : str) : result json :=
  match v with
  | JObj m =>
      match m !! key with
      | Some x => Ok x
      | None => Raise (KeyError key)
      end
  | _ => Raise (TypeError v)
  end.

(** ** The endpoint *)

(** What the endpoint hands to the framework: the dict it returns, or the
    [HTTPException] it raises. *)
Inductive response : Type :=
| Return (body : gmap str json)
| HTTPException (status : Z) (detail : str).

(** The [try] block of [generate_contract]. *)
Definition generate_contract_try (w : World) (data : ContractRequest)
  : M (gmap str json) :=
  raw_clause ← lift (retrieve_clause (clause_query data) (contract_type data));
  refined_clause ←
    refine_clause_with_legal_expertise w raw_clause (contract_type data);
  let contract_text := get_legal_template data refined_clause in
  let filename := uuid4_hex w ++ py ".pdf" in
  save_as_pdf w contract_text filename;;
  f ← open_rb w filename;
  upload_res ←
    lift (requests_post w (py "https://store1.gofile.io/uploadFile") filename f);
  if negb (status_code upload_res =? 200)%Z then
    raise (Exception (py "Upload failed: " ++ str_of_int (status_code upload_res)))
  else
    res_json ← lift (json_result upload_res);
    status ← lift (get res_json (py "status"));
    if negb (json_eq_str status (py "ok")) then
      raise (Exception (py "Gofile error: " ++ format_json w res_json))
    else
      data_ ← lift (getitem res_json (py "data"));
      file_url ← lift (getitem data_ (py "downloadPage"));
      mret (dict [ (py "message", JStr (py "Contract generated and uploaded."));
                  (py "contract", JStr contract_text);
                  (py "pdf_url", file_url) ]).

Definition generate_contract (w : World) (data : ContractRequest)
  : files -> response * files :=
  fun fs =>
    match generate_contract_try w data fs with
    | (Ok body, fs') => (Return body, fs')
    | (Raise e, fs') =>
        (HTTPException 400 (py "Contract generation failed: " ++ exn_str w e), fs')
    end.

(** ** Vocabulary of the specification *)

(** The plain rendering of a character, in the words of the specification:
    typographic quotation marks become their ASCII equivalents, the rupee
    sign becomes its abbreviation, every other character stays. *)
Definition plain_equivalent (c : N) : str :=
  if c =? RSQUO then [APOS]
  else if (c =? LDQUO) || (c =? RDQUO) then [DQUOTE]
  else if c =? RUPEE then py "Rs."
  else [c].

(** A party name that is present and has at least two characters. *)
Definition long_enough (raw : option str) : Prop :=
  exists v : str, raw = Some v /\ (2 <= length v)%nat.

(** The scenarios of the specification: the request of scenario A, and a
    lease request without property address (scenario C). *)
Definition scenario_A : RawRequest :=
  {| raw_contract_type := Some (py "nda");
     raw_party_a := Some (py "Acme Inc");
     raw_party_b := Some (py "Beta LLC");
     raw_duration := Some (py "2 years");
     raw_clause_query := Some (py "confidentiality");
     raw_property_address := None;
     raw_position := None;
     raw_goods_description := None;
     raw_scope := None;
     raw_jurisdiction := Some (py "New Delhi") |}.

Definition scenario_C : RawRequest :=
  {| raw_contract_type := Some (py "lease");
     raw_party_a := Some (py "Acme Inc");
     raw_party_b := Some (py "Beta LLC");
     raw_duration := Some (py "11 months");
     raw_clause_query := Some (py "rent");
     raw_property_address := None;
     raw_position := None;
     raw_goods_description := None;
     raw_scope := None;
     raw_jurisdiction := None |}.

(** The requests that validation builds from them. *)
Definition request_A : ContractRequest :=
  {| contract_type := py "nda";
     party_a := py "Acme Inc";
     party_b := py "Beta LLC";
     duration := py "2 years";
     clause_query := py "confidentiality";
     property_address := None;
     position := None;
     goods_description := None;
     scope := None;
     jurisdiction := py "New Delhi" |}.

Definition request_C : ContractRequest :=
  {| contract_type := py "lease";
     party_a := py "Acme Inc";
     party_b := py "Beta LLC";
     duration := py "11 months";
     clause_query := py "rent";
     property_address := None;
     position := None;
     goods_description := None;
     scope := None;
     jurisdiction := py "New Delhi" |}.

(** The reply of the stubbed refinement service of scenario A. *)
Definition refined_A : str := py "Confidential information shall be protected.".

(** The JSON body that the framework sends for a response: the returned
    dict, or an object with the detail of the [HTTPException]. *)
Definition json_body (r : response) : gmap str json :=
  match r with
  | Return body => body
  | HTTPException _ detail => dict [ (py "detail", JStr detail) ]
  end.

Definition failed (r : response) : Prop :=
  exists status detail, r = HTTPException status detail.

Definition detail_of (r : response) : str :=
  match r with
  | HTTPException _ detail => detail
  | Return _ => []
  end.

(** The name of the file that a request writes. *)
Definition pdf_name (w : World) : str := uuid4_hex w ++ py ".pdf".

(** The steps before the reply of the file-hosting service have succeeded:
    the refinement returned [refined], the file was rendered and opened,
    and the upload request was answered by [upload_res]. *)
Definition reaches_upload (w : World) (data : ContractRequest) (fs : files)
    (refined : str) (upload_res : http_response) : Prop :=
  exists raw_clause,
    retrieve_clause (clause_query data) (contract_type data) = Ok raw_clause /\
    refine_clause_with_legal_expertise w raw_clause (contract_type data) fs
      = (Ok refined, fs) /\
    fpdf_raises w (pdf_document (get_legal_template data refined)) (pdf_name w)
      = None /\
    open_raises w (pdf_name w) = None /\
    requests_post w (py "https://store1.gofile.io/uploadFile") (pdf_name w)
      (pdf_document (get_legal_template data refined)) = Ok upload_res.

(** The body of the reply has a status field equal to "ok". *)
Definition status_field_ok (upload_res : http_response) : Prop :=
  exists j, json_result upload_res = Ok j /\
            get j (py "status") = Ok (JStr (py "ok")).

(** The body of the reply has the nested field [data.downloadPage]. *)
Definition download_page (upload_res : http_response) (url : json) : Prop :=
  exists j d, json_result upload_res = Ok j /\
              getitem j (py "data") = Ok d /\
              getitem d (py "downloadPage") = Ok url.

(** The dict that the endpoint returns. *)
Definition success_body (contract_text : str) (file_url : json) : gmap str json :=
  dict [ (py "message", JStr (py "Contract generated and uploaded."));
         (py "contract", JStr contract_text);
         (py "pdf_url", file_url) ].

(** Stubs for the scenarios: a refinement service that answers
    [refined_A], a renderer and a file system that do not fail, and a
    file-hosting service that answers [reply]. *)
Definition stub_text (e : exn) : str :=
  match e with
  | Exception msg | ValueError msg | LibraryError msg => msg
  | KeyError key => [APOS] ++ key ++ [APOS]
  | IndexError => py "list index out of range"
  | TypeError _ => py "object is not subscriptable"
  | FileNotFoundError name => py "No such file or directory: " ++ name
  | AttributeError _ attr => py "object has no attribute " ++ attr
  end.

Definition stub_world (reply : result http_response) : World :=
  {| completions_create := fun _ => Ok [Some (py " " ++ refined_A ++ py "\n")];
     uuid4_hex := py "0f8fad5bd9cb469fa16570867728950e";
     fpdf_raises := fun _ _ => None;
     open_raises := fun _ => None;
     requests_post := fun _ _ _ => reply;
     builtin_text := stub_text;
     format_json := fun _ => py "{...}" |}.

(** The reply of scenario A,
    [{"status": "ok", "data": {"downloadPage": "https://example/x"}}]. *)
Definition reply_A : http_response :=
  {| status_code := 200;
     json_result :=
       Ok (JObj (dict [ (py "status", JStr (py "ok"));
                        (py "data",
                         JObj (dict [ (py "downloadPage",
                                       JStr (py "https://example/x")) ])) ])) |}.

(** The reply of scenario B: HTTP 500. *)
Definition reply_B : http_response :=
  {| status_code := 500; json_result := Raise (LibraryError (py "Expecting value")) |}.

(** A reply with HTTP 200 and the body [{"status": "ok"}]. *)
Definition reply_without_data : http_response :=
  {| status_code := 200;
     json_result := Ok (JObj (dict [ (py "status", JStr (py "ok")) ])) |}.

(** A request whose party name holds a right single quotation mark. *)
Definition request_quoted : ContractRequest :=
  {| contract_type := py "nda";
     party_a := py "Acme" ++ [RSQUO] ++ py "s Inc";
     party_b := py "Beta LLC";
     duration := py "2 years";
     clause_query := py "confidentiality";
     property_address := None;
     position := None;
     goods_description := None;
     scope := None;
     jurisdiction := py "New Delhi" |}.

(** What [generate_contract] does with the reply of the file-hosting
    service: the last part of its [try] block. *)
Definition handle_reply (w : World) (contract_text : str)
    (upload_res : http_response) : M (gmap str json) :=
  if negb (status_code upload_res =? 200)%Z then
    raise (Exception (py "Upload failed: " ++ str_of_int (status_code upload_res)))
  else
    res_json ← lift (json_result upload_res);
    status ← lift (get res_json (py "status"));
    if negb (json_eq_str status (py "ok")) then
      raise (Exception (py "Gofile error: " ++ format_json w res_json))
    else
      data_ ← lift (getitem res_json (py "data"));
      file_url ← lift (getitem data_ (py "downloadPage"));
      mret (success_body contract_text file_url).

(** A step of the [try] block raises [e] after the steps before it have
    succeeded: the refinement, the rendering of the file, the opening of the
    file, the upload request, or the handling of its reply. *)
Inductive step_raises (w : World) (data : ContractRequest) (fs : files)
  : exn -> Prop :=
| refinement_raises raw_clause e fs' :
    retrieve_clause (clause_query data) (contract_type data) = Ok raw_clause ->
    refine_clause_with_legal_expertise w raw_clause (contract_type data) fs
      = (Raise e, fs') ->
    step_raises w data fs e
| rendering_raises raw_clause refined e :
    retrieve_clause (clause_query data) (contract_type data) = Ok raw_clause ->
    refine_clause_with_legal_expertise w raw_clause (contract_type data) fs
      = (Ok refined, fs) ->
    fpdf_raises w (pdf_document (get_legal_template data refined)) (pdf_name w)
      = Some e ->
    step_raises w data fs e
| opening_raises raw_clause refined e :
    retrieve_clause (clause_query data) (contract_type data) = Ok raw_clause ->
    refine_clause_with_legal_expertise w raw_clause (contract_type data) fs
      = (Ok refined, fs) ->
    fpdf_raises w (pdf_document (get_legal_template data refined)) (pdf_name w)
      = None ->
    open_raises w (pdf_name w) = Some e ->
    step_raises w data fs e
| upload_raises raw_clause refined e :
    retrieve_clause (clause_query data) (contract_type data) = Ok raw_clause ->
    refine_clause_with_legal_expertise w raw_clause (contract_type data) fs
      = (Ok refined, fs) ->
    fpdf_raises w (pdf_document (get_legal_template data refined)) (pdf_name w)
      = None ->
    open_raises w (pdf_name w) = None ->
    requests_post w (py "https://store1.gofile.io/uploadFile") (pdf_name w)
      (pdf_document (get_legal_template data refined)) = Raise e ->
    step_raises w data fs e
| reply_raises refined upload_res e fs' :
    reaches_upload w data fs refined upload_res ->
    handle_reply w (get_legal_template data refined) upload_res
      (<[pdf_name w := pdf_document (get_legal_template data refined)]> fs)
      = (Raise e, fs') ->
    step_raises w data fs e.

(** ** Further vocabulary *)



(** The prompt for the first clause of the nda bank. *)
Definition clause_A : str :=
  py "All confidential information shall remain the exclusive property of the disclosing party and shall not be used for any purpose other than the intended business collaboration.".

Definition prompt_A : str :=
  match refinement_prompt clause_A (py "nda") with
  | Ok prompt => prompt
  | Raise _ => []
  end.

(** The completion request that carries a prompt. *)
Definition request_for (prompt : str) : completion_request :=
  {| model := py "gpt-3.5-turbo-16k";
     messages := [ {| role := py "user"; content := prompt |} ];
     temperature := 2 # 10;
     max_tokens := 300 |}.

(** No white space at either end. *)
Definition trimmed (s : str) : Prop :=
  (forall c, head s = Some c -> is_space c = false) /\
  (forall c, last s = Some c -> is_space c = false).

(** [sep.join(lines)] for a separator of one character. *)
Fixpoint join (sep : N) (lines : list str) : str :=
  match lines with
  | [] => []
  | [l] => l
  | l :: ls => l ++ sep :: join sep ls
  end.

(** [s.count(c)] for a character [c]. *)
Fixpoint count (c : N) (s : str) : nat :=
  match s with
  | [] => 0
  | x :: s' => (if x =? c then 1 else 0) + count c s'
  end.

(** The texts of the paragraphs that a document lays out, in order. *)
Definition paragraphs (doc : list fpdf_call) : list str :=
  flat_map (fun call => match call with
                        | multi_cell _ _ txt => [txt]
                        | _ => []
                        end) doc.

(** The characters that the normalization replaces. *)
Definition typographic : list N := [RSQUO; LDQUO; RDQUO; RUPEE].

(** A request whose contract type is none of the nine. *)
Definition request_unknown : ContractRequest :=
  {| contract_type := py "will";
     party_a := py "Acme Inc";
     party_b := py "Beta LLC";
     duration := py "2 years";
     clause_query := py "inheritance";
     property_address := None;
     position := None;
     goods_description := None;
     scope := None;
     jurisdiction := py "New Delhi" |}.

(** A reply with HTTP 200 whose status field is not "ok", although the
    download page is there. *)
Definition reply_error : http_response :=
  {| status_code := 200;
     json_result :=
       Ok (JObj (dict [ (py "status", JStr (py "error-token"));
                        (py "data",
                         JObj (dict [ (py "downloadPage",
                                       JStr (py "https://example/x")) ])) ])) |}.

(** The type-specific field that the template of a contract type reads. *)
Definition type_specific (data : ContractRequest) : option str :=
  if decide (contract_type data = py "sales") then goods_description data
  else if decide (contract_type data = py "employment") then position data
  else if decide (contract_type data = py "lease") then property_address data
  else if decide (contract_type data = py "noncompete") then scope data
  else None.

(** Two requests agree on what the templates read: the contract type, the
    parties, the duration, the jurisdiction and the type-specific field. *)
Definition same_template_inputs (data data' : ContractRequest) : Prop :=
  contract_type data = contract_type data' /\
  party_a data = party_a data' /\
  party_b data = party_b data' /\
  duration data = duration data' /\
  jurisdiction data = jurisdiction data' /\
  type_specific data = type_specific data'.

(** [request_A] with another clause query and with optional fields that an
    nda does not use. *)
Definition request_A_variant : ContractRequest :=
  {| contract_type := py "nda";
     party_a := py "Acme Inc";
     party_b := py "Beta LLC";
     duration := py "2 years";
     clause_query := py "anything else";
     property_address := Some (py "12 Main Road");
     position := Some (py "Engineer");
     goods_description := Some (py "Widgets");
     scope := Some (py "Delhi");
     jurisdiction := py "New Delhi" |}.

(** The title of the template of each contract type. *)
Definition title (t : str) : str :=
  if decide (t = py "nda") then py "NON-DISCLOSURE AGREEMENT"
  else if decide (t = py "contractor") then py "INDEPENDENT CONTRACTOR AGREEMENT"
  else if decide (t = py "sla") then py "SERVICE LEVEL AGREEMENT"
  else if decide (t = py "partnership") then py "PARTNERSHIP AGREEMENT"
  else if decide (t = py "sales") then py "SALES AGREEMENT"
  else if decide (t = py "employment") then py "EMPLOYMENT AGREEMENT"
  else if decide (t = py "lease") then py "LEASE AGREEMENT"
  else if decide (t = py "mou") then py "MEMORANDUM OF UNDERSTANDING"
  else if decide (t = py "noncompete") then py "NON-COMPETE AGREEMENT"
  else [].

(** * Properties *)

(** ** Strings and dictionaries *)

Lemma starts_with_app (p r : str) : starts_with p (p ++ r) = true.
Proof.
  induction p as [|a p IH]; simpl; [done|].
  by rewrite N.eqb_refl, IH.
Qed.

Lemma starts_with_inv (p s : str) :
  starts_with p s = true -> s = p ++ drop (length p) s.
Proof.
  revert s; induction p as [|a p IH]; intros [|b s]; simpl; try done.
  intros [Hab Hps]%andb_prop. apply N.eqb_eq in Hab as ->.
  f_equal. by apply IH.
Qed.

Lemma starts_with_true (p s : str) :
  starts_with p s = true <-> exists r, s = p ++ r.
Proof.
  split.
  - intros H. exists (drop (length p) s). by apply starts_with_inv.
  - intros [r ->]. apply starts_with_app.
Qed.

Lemma contains_true (s p : str) :
  contains s p = true <-> substring_of p s.
Proof.
  unfold substring_of. induction s as [|c s IH]; simpl.
  - rewrite orb_false_r, starts_with_true. split.
    + intros [r Hr]. exists [], r. done.
    + intros (l & r & Hlr). symmetry in Hlr.
      apply app_eq_nil in Hlr as [-> Hlr]. apply app_eq_nil in Hlr as [-> ->].
      by exists [].
  - rewrite orb_true_iff, starts_with_true, IH. split.
    + intros [[r Hr] | (l & r & Hlr)].
      * exists [], r. done.
      * exists (c :: l), r. simpl. by rewrite Hlr.
    + intros ([|c' l] & r & Hlr).
      * left. by exists r.
      * right. exists l, r. simpl in Hlr. by injection Hlr.
Qed.

Lemma substring_of_here (p r : str) : substring_of p (p ++ r).
Proof. by exists [], r. Qed.

Lemma substring_of_end (p : str) : substring_of p p.
Proof. exists [], []. by rewrite app_nil_r. Qed.

Lemma substring_of_app_r (p x s : str) :
  substring_of p s -> substring_of p (x ++ s).
Proof.
  intros (l & r & ->). exists (x ++ l), r. by rewrite <- app_assoc.
Qed.

(** Finds an occurrence in a concatenation of pieces. *)
Ltac find_substring :=
  repeat first [ apply substring_of_here
               | apply substring_of_end
               | apply substring_of_app_r ].

Section dict.
Context {V : Type}.
Implicit Types (items : list (str * V)) (m : gmap str V).

Lemma foldl_insert_lookup_ne items m (k : str) :
  k ∉ items.*1 ->
  foldl (fun m kv => <[kv.1 := kv.2]> m) m items !! k = m !! k.
Proof.
  revert m. induction items as [|[k' v'] items IH]; intros m Hk; [done|].
  simpl in *. apply not_elem_of_cons in Hk as [Hne Hk].
  rewrite IH by done. by apply lookup_insert_ne.
Qed.

Lemma dict_lookup_None items (k : str) :
  k ∉ items.*1 -> dict items !! k = None.
Proof. intros Hk. unfold dict. by rewrite foldl_insert_lookup_ne. Qed.

Lemma dict_lookup_Some items (k : str) (v : V) :
  NoDup items.*1 -> (k, v) ∈ items -> dict items !! k = Some v.
Proof.
  unfold dict. generalize (∅ : gmap str V) as m.
  induction items as [|[k' v'] items IH]; intros m Hnd Hin.
  - by apply elem_of_nil in Hin.
  - simpl in *. apply NoDup_cons in Hnd as [Hk' Hnd].
    apply elem_of_cons in Hin as [[= <- <-] | Hin].
    + rewrite foldl_insert_lookup_ne by done. apply lookup_insert_eq.
    + by apply IH.
Qed.
End dict.

(** ** The matcher and the language of a pattern *)

Lemma lang_nonempty (r : regex) (w : str) :
  lang r w -> nullable r = false -> w <> [].
Proof.
  induction 1 as [c x Hx|l|r1 r2 w1 w2 H1 IH1 H2 IH2|r1 r2 w H IH|r1 r2 w H IH
                 |r w H IH|r w1 w2 H1 IH1 H2 IH2]; simpl; intros Hn.
  - done.
  - by destruct l.
  - apply andb_false_iff in Hn as [Hn|Hn].
    + intros [E _]%app_eq_nil. by apply IH1.
    + intros [_ E]%app_eq_nil. by apply IH2.
  - apply orb_false_iff in Hn as [Hn _]. by apply IH.
  - apply orb_false_iff in Hn as [_ Hn]. by apply IH.
  - by apply IH.
  - intros [E _]%app_eq_nil. by apply IH1.
Qed.

Lemma repeat_run_lang (r : regex) :
  runs (lang r) (re_run r) -> nullable r = false ->
  forall fuel k pos s, (length s < fuel)%nat ->
    repeat_run (re_run r) k fuel pos s = true <->
    exists w rest,
      s = w ++ rest /\ lang (Plus r) w /\ k (pos + length w)%nat rest = true.
Proof.
  intros Hr Hn. induction fuel as [|fuel IH]; intros k pos s Hlen; [lia|].
  simpl. rewrite (Hr _ pos s). split.
  - intros (w1 & rest1 & -> & Hw1 & Hk).
    apply orb_true_iff in Hk as [Hk|Hk].
    + apply IH in Hk as (w2 & rest & -> & Hw2 & Hk).
      * exists (w1 ++ w2), rest. split; [by rewrite app_assoc|].
        split; [by apply lang_plus_more|].
        by rewrite length_app, Nat.add_assoc.
      * pose proof (lang_nonempty _ _ Hw1 Hn) as Hne.
        rewrite length_app in Hlen. destruct w1; [done|]. simpl in Hlen. lia.
    + exists w1, rest1. eauto using lang_plus_once.
  - intros (w & rest & -> & Hw & Hk).
    inversion Hw as [| | | | |r' w' Hw'|r' w1 w2 Hw1 Hw2]; subst.
    + exists w, rest. split; [done|]. split; [done|].
      rewrite Hk. apply orb_true_r.
    + exists w1, (w2 ++ rest). split; [by rewrite app_assoc|]. split; [done|].
      apply orb_true_iff. left. apply IH.
      * pose proof (lang_nonempty _ _ Hw1 Hn) as Hne.
        rewrite !length_app in Hlen. rewrite length_app.
        destruct w1; [done|]. simpl in Hlen. lia.
      * exists w2, rest. split; [done|]. split; [done|].
        by rewrite length_app, Nat.add_assoc in Hk.
Qed.

(** On a plain pattern the matcher succeeds exactly when a prefix of the
    subject is a word of the pattern and the continuation accepts the rest. *)
Lemma re_run_lang (r : regex) : plain r = true -> runs (lang r) (re_run r).
Proof.
  induction r as [| |c|l|r1 IH1 r2 IH2|r1 IH1 r2 IH2|r IH]; simpl; intros Hp;
    try done.
  - intros k pos s. destruct s as [|x s]; simpl.
    + split; [done|]. intros (w & rest & Hs & Hw & _).
      inversion Hw; subst. done.
    + split.
      * destruct (c x) eqn:Hx; [|done]. intros Hk.
        exists [x], s. split; [done|]. split; [by constructor|].
        simpl. by rewrite Nat.add_1_r.
      * intros (w & rest & Hs & Hw & Hk). inversion Hw as [c' x' Hx'| | | | | |]; subst.
        injection Hs as -> ->. rewrite Hx'. simpl in Hk.
        by rewrite Nat.add_1_r in Hk.
  - intros k pos s. split.
    + destruct (starts_with l s) eqn:Hl; [|done]. intros Hk.
      exists l, (drop (length l) s). split; [by apply starts_with_inv|].
      split; [constructor|done].
    + intros (w & rest & -> & Hw & Hk). inversion Hw; subst.
      rewrite starts_with_app. by rewrite drop_app_length.
  - apply andb_prop in Hp as [Hp1 Hp2]. intros k pos s.
    rewrite (IH1 Hp1 _ pos s). split.
    + intros (w1 & rest1 & -> & Hw1 & Hk).
      apply (IH2 Hp2) in Hk as (w2 & rest & -> & Hw2 & Hk).
      exists (w1 ++ w2), rest. split; [by rewrite app_assoc|].
      split; [by constructor|]. by rewrite length_app, Nat.add_assoc.
    + intros (w & rest & -> & Hw & Hk).
      inversion Hw as [| |r1' r2' w1 w2 Hw1 Hw2| | | |]; subst.
      exists w1, (w2 ++ rest). split; [by rewrite app_assoc|]. split; [done|].
      apply (IH2 Hp2). exists w2, rest. split; [done|]. split; [done|].
      by rewrite length_app, Nat.add_assoc in Hk.
  - apply andb_prop in Hp as [Hp1 Hp2]. intros k pos s.
    rewrite orb_true_iff, (IH1 Hp1 _ pos s), (IH2 Hp2 _ pos s). split.
    + intros [(w & rest & -> & Hw & Hk)|(w & rest & -> & Hw & Hk)];
        exists w, rest; eauto using lang_branch_l, lang_branch_r.
    + intros (w & rest & -> & Hw & Hk).
      inversion Hw; subst; [left|right]; eauto.
  - apply andb_prop in Hp as [Hp Hn]. apply negb_true_iff in Hn.
    intros k pos s.
    exact (repeat_run_lang r (IH Hp) Hn (S (length s)) k pos s
             (Nat.lt_succ_diag_r _)).
Qed.

(** *** The words of the duration format *)

Lemma lang_plus_category (c : N -> bool) (w : str) :
  lang (Plus (Category c)) w <-> w <> [] /\ Forall (fun x => c x = true) w.
Proof.
  split.
  - remember (Plus (Category c)) as r eqn:Hr. intros Hw. revert Hr.
    induction Hw as [| | | | |r w Hw _|r w1 w2 Hw1 _ Hw2 IH]; try done.
    + intros [= ->]. inversion Hw; subst. split; [done|]. by constructor.
    + intros [= ->]. inversion Hw1; subst. destruct (IH eq_refl) as [_ Hall].
      split; [done|]. by constructor.
  - intros [Hne Hall]. induction Hall as [|x w Hx Hall IH]; [done|].
    destruct w as [|y w].
    + apply lang_plus_once. by constructor.
    + apply (lang_plus_more _ [x] (y :: w)); [by constructor | by apply IH].
Qed.

Lemma lang_units (u : str) :
  lang units u <->
  u ∈ [py "year"; py "years"; py "month"; py "months"; py "day"; py "days"].
Proof.
  unfold units. simpl branch_of. split.
  - intros Hu.
    repeat (inversion Hu as [| | |? ? ? Hl|? ? ? Hr| |]; clear Hu; subst;
            [inversion Hl; subst; set_solver | rename Hr into Hu]).
    inversion Hu; subst. set_solver.
  - intros Hu. repeat (apply elem_of_cons in Hu as [-> | Hu]).
    + apply lang_branch_l. constructor.
    + apply lang_branch_r, lang_branch_l. constructor.
    + do 2 apply lang_branch_r. apply lang_branch_l. constructor.
    + do 3 apply lang_branch_r. apply lang_branch_l. constructor.
    + do 4 apply lang_branch_r. apply lang_branch_l. constructor.
    + do 5 apply lang_branch_r. constructor.
    + by apply elem_of_nil in Hu.
Qed.

(** A word of the format: decimal digits, white space and a unit. *)
Lemma lang_duration_format (w : str) :
  lang duration_format w <->
  exists digits spaces unit,
    w = digits ++ spaces ++ unit /\
    digits <> [] /\ Forall (fun c => is_decimal c = true) digits /\
    spaces <> [] /\ Forall (fun c => is_space c = true) spaces /\
    unit ∈ [py "year"; py "years"; py "month"; py "months"; py "day"; py "days"].
Proof.
  unfold duration_format. simpl seq_of. split.
  - intros Hw. inversion Hw as [| |? ? ds w' Hds Hw'| | | |]; subst.
    inversion Hw' as [| |? ? ws u Hws Hu| | | |]; subst.
    apply lang_plus_category in Hds as [? ?].
    apply lang_plus_category in Hws as [? ?].
    apply lang_units in Hu. exists ds, ws, u. auto 10.
  - intros (ds & ws & u & -> & ? & ? & ? & ? & Hu).
    apply lang_seq; [by apply lang_plus_category|].
    apply lang_seq; [by apply lang_plus_category | by apply lang_units].
Qed.

(** ** Validation of the duration *)

Lemma duration_format_plain : plain duration_format = true.
Proof. reflexivity. Qed.

Lemma re_fullmatch_lang (r : regex) (v : str) :
  plain r = true -> re_fullmatch r v = true <-> lang r v.
Proof.
  intros Hp. unfold re_fullmatch. rewrite (re_run_lang r Hp _ 0%nat v). split.
  - intros (w & [|c rest] & -> & Hw & Hk); [|done]. by rewrite app_nil_r.
  - intros Hw. exists v, []. by rewrite app_nil_r.
Qed.

(** The pattern of [validate_duration] accepts a word of the format that is
    followed by nothing or by one line feed. *)
Lemma re_match_duration_pattern (v : str) :
  re_match duration_pattern v = true <->
  exists w rest,
    v = w ++ rest /\ lang duration_format w /\ (rest = [] \/ rest = [LF]).
Proof.
  change (re_match duration_pattern v)
    with (re_run duration_format (re_run AtEnd (fun _ _ => true)) 0%nat v).
  rewrite (re_run_lang _ duration_format_plain _ 0%nat v).
  split; intros (w & rest & -> & Hw & Hk); exists w, rest;
    (split; [done|]); (split; [done|]).
  - destruct rest as [|c [|c' rest]]; simpl in Hk; try done; [by left|].
    destruct (c =? LF) eqn:Hc; [|done]. apply N.eqb_eq in Hc as ->. by right.
  - by destruct Hk as [-> | ->].
Qed.

Lemma validate_duration_Ok (v : str) :
  validate_duration v = Ok v <-> re_match duration_pattern v = true.
Proof.
  unfold validate_duration. by destruct (re_match duration_pattern v).
Qed.

Lemma validate_duration_Raise (v : str) :
  re_match duration_pattern v = false ->
  validate_duration v =
  Raise (ValueError
           (py "Duration must be in format '# year/years/month/months/day/days'")).
Proof. unfold validate_duration. by intros ->. Qed.

(** Every whole-string match of the format passes the validator. *)
Lemma validate_duration_accepts_format (v : str) :
  re_fullmatch duration_format v = true -> validate_duration v = Ok v.
Proof.
  rewrite (re_fullmatch_lang _ _ duration_format_plain), validate_duration_Ok,
    re_match_duration_pattern.
  intros Hv. exists v, []. rewrite app_nil_r. auto.
Qed.

(** What the validator accepts: the whole-string matches of the format, and
    those followed by one line feed. *)
Lemma validate_duration_accepts (v : str) :
  validate_duration v = Ok v <->
  re_fullmatch duration_format v = true \/
  exists v', v = v' ++ [LF] /\ re_fullmatch duration_format v' = true.
Proof.
  rewrite validate_duration_Ok, re_match_duration_pattern,
    (re_fullmatch_lang _ _ duration_format_plain).
  split.
  - intros (w & rest & -> & Hw & [-> | ->]).
    + left. by rewrite app_nil_r.
    + right. exists w. by rewrite (re_fullmatch_lang _ _ duration_format_plain).
  - intros [Hv | (v' & -> & Hv')].
    + exists v, []. rewrite app_nil_r. auto.
    + apply (re_fullmatch_lang _ _ duration_format_plain) in Hv'.
      exists v', [LF]. auto.
Qed.

(** The examples of the specification are rejected. *)
Lemma validate_duration_examples :
  validate_duration (py "2 years") = Ok (py "2 years") /\
  (forall v, v ∈ [py "5 weeks"; py "abc days"; py ""] ->
     exists e, validate_duration v = Raise e).
Proof.
  split; [reflexivity|].
  intros v Hv. repeat (apply elem_of_cons in Hv as [-> | Hv]);
    [eexists; reflexivity ..|]. by apply elem_of_nil in Hv.
Qed.

(** C1: the validator is meant to accept exactly the whole-string matches
    of [\d+\s+(year|years|month|months|day|days)], but it accepts the
    duration "5 years\n", which is not one: [$] also matches before a line
    feed that ends the string. *)
Theorem validate_duration_trailing_line_feed :
  validate_duration (py "5 years\n") = Ok (py "5 years\n") /\
  re_fullmatch duration_format (py "5 years\n") = false.
Proof. split; reflexivity. Qed.

(** ** Validation of the party names *)

Lemma validate_party_names_Ok (v : str) :
  validate_party_names v = Ok v <-> (2 <= length v)%nat.
Proof.
  unfold validate_party_names.
  destruct v as [|a [|b v]]; simpl; split; try done; try lia.
Qed.

Lemma validate_party_names_Raise (v : str) :
  (length v < 2)%nat ->
  validate_party_names v =
  Raise (ValueError (py "Party names must be valid and at least 2 characters long")).
Proof. destruct v as [|a [|b v]]; simpl; try done; lia. Qed.

Lemma required_field_party (raw : option str) :
  (forall v, required_field raw validate_party_names = inr v -> raw = Some v) /\
  ((exists v, required_field raw validate_party_names = inr v) <-> long_enough raw).
Proof.
  unfold required_field, long_enough. destruct raw as [v|].
  - destruct (validate_party_names v) as [v'|e] eqn:Hv.
    + assert (v' = v) as ->.
      { unfold validate_party_names in Hv.
        destruct (_ || _); by inversion Hv. }
      apply validate_party_names_Ok in Hv. split.
      * by intros ? [= <-].
      * split; eauto.
    + split; [done|]. split; [by intros [? ?]|].
      intros (v' & [= <-] & Hlen). apply validate_party_names_Ok in Hlen.
      congruence.
  - split; [done|]. split; [by intros [? ?]| by intros (? & ? & ?)].
Qed.

Lemma parse_obj_inr (raw : RawRequest) (d : ContractRequest) :
  parse_obj raw = inr d ->
  literal_field contract_types (raw_contract_type raw) = inr (contract_type d) /\
  required_field (raw_party_a raw) validate_party_names = inr (party_a d) /\
  required_field (raw_party_b raw) validate_party_names = inr (party_b d) /\
  required_field (raw_duration raw) validate_duration = inr (duration d) /\
  raw_clause_query raw = Some (clause_query d) /\
  property_address d = raw_property_address raw /\
  position d = raw_position raw /\
  goods_description d = raw_goods_description raw /\
  scope d = raw_scope raw /\
  jurisdiction d = default (py "New Delhi") (raw_jurisdiction raw).
Proof.
  unfold parse_obj.
  destruct (raw_clause_query raw) as [q|],
    (literal_field _ _) as [?|t],
    (required_field (raw_party_a raw) _) as [?|a],
    (required_field (raw_party_b raw) _) as [?|b],
    (required_field (raw_duration raw) _) as [?|du]; simpl; try done.
  intros [= <-]. simpl. tauto.
Qed.

Lemma parse_obj_contract_type (raw : RawRequest) (d : ContractRequest) :
  parse_obj raw = inr d -> contract_type d ∈ contract_types.
Proof.
  intros (Ht & _)%parse_obj_inr. unfold literal_field in Ht.
  destruct (raw_contract_type raw) as [t|]; [|done].
  case_bool_decide; [|done]. by injection Ht as <-.
Qed.

(** C7: a party name passes validation exactly when it is present and has
    at least two characters, whatever the characters are; the validated
    value is the given one; and a request with a party name that is absent,
    empty or of one character is rejected with a [ValidationError] that
    lists the field. *)
Theorem party_names_validation (raw : RawRequest) :
  (forall name : option str,
     ((exists v, required_field name validate_party_names = inr v) <->
      long_enough name) /\
     (forall v, required_field name validate_party_names = inr v ->
                name = Some v)) /\
  (~ long_enough (raw_party_a raw) ->
   exists errors e, parse_obj raw = inl errors /\ (py "party_a", e) ∈ errors) /\
  (~ long_enough (raw_party_b raw) ->
   exists errors e, parse_obj raw = inl errors /\ (py "party_b", e) ∈ errors).
Proof.
  split; [|split].
  - intros name. destruct (required_field_party name) as [H1 H2]. by split.
  - intros Hn. unfold parse_obj.
    destruct (required_field (raw_party_a raw) _) as [e|a] eqn:Ha.
    + exists (field_errors (py "contract_type")
                (literal_field contract_types (raw_contract_type raw)) ++
              field_errors (py "party_a") (inl e : field_error + str) ++
              field_errors (py "party_b")
                (required_field (raw_party_b raw) validate_party_names) ++
              field_errors (py "duration")
                (required_field (raw_duration raw) validate_duration) ++
              field_errors (py "clause_query")
                (required_field (raw_clause_query raw) Ok)), e.
      split; [by destruct (literal_field _ _)|].
      apply elem_of_app. right. apply elem_of_app. left. simpl. apply list_elem_of_here.
    + destruct Hn. apply required_field_party. eauto.
  - intros Hn. unfold parse_obj.
    destruct (required_field (raw_party_b raw) _) as [e|b] eqn:Hb.
    + exists (field_errors (py "contract_type")
                (literal_field contract_types (raw_contract_type raw)) ++
              field_errors (py "party_a")
                (required_field (raw_party_a raw) validate_party_names) ++
              field_errors (py "party_b") (inl e : field_error + str) ++
              field_errors (py "duration")
                (required_field (raw_duration raw) validate_duration) ++
              field_errors (py "clause_query")
                (required_field (raw_clause_query raw) Ok)), e.
      split; [by destruct (literal_field _ _), (required_field (raw_party_a raw) _)|].
      apply elem_of_app. right. apply elem_of_app. right.
      apply elem_of_app. left. simpl. apply list_elem_of_here.
    + destruct Hn. apply required_field_party. eauto.
Qed.

(** ** Clause retrieval *)

Lemma specialized_clause_banks_keys (t : str) :
  is_Some (specialized_clause_banks !! t) <->
  t ∈ [py "nda"; py "employment"; py "noncompete"].
Proof.
  split.
  - intros Hs. destruct (decide (t ∈ [py "nda"; py "employment"; py "noncompete"]))
      as [|Hn]; [done|].
    unfold specialized_clause_banks in Hs. rewrite dict_lookup_None in Hs.
    + by destruct Hs.
    + exact Hn.
  - intros Ht. repeat (apply elem_of_cons in Ht as [-> | Ht]);
      [by vm_compute; eexists ..|]. by apply elem_of_nil in Ht.
Qed.

Lemma retrieve_clause_Ok (q t : str) :
  exists first rest,
    default default_clauses (specialized_clause_banks !! t) = first :: rest /\
    retrieve_clause q t = Ok first.
Proof.
  destruct (decide (t ∈ [py "nda"; py "employment"; py "noncompete"])) as [Ht|Hn].
  - repeat (apply elem_of_cons in Ht as [-> | Ht]);
      [by vm_compute; eexists _, _ ..|]. by apply elem_of_nil in Ht.
  - assert (specialized_clause_banks !! t = None) as Hnone.
    { apply eq_None_not_Some. by rewrite specialized_clause_banks_keys. }
    unfold retrieve_clause. rewrite Hnone. by vm_compute; eexists _, _.
Qed.

(** C2: for every query and every contract type, [retrieve_clause] returns
    (and never raises) the first entry of the list resolved for the type:
    the bank of the type for nda, employment and noncompete, the default
    list for every other type; the query plays no role. *)
Theorem retrieve_clause_first_entry (q t : str) :
  (exists first rest,
     default default_clauses (specialized_clause_banks !! t) = first :: rest /\
     retrieve_clause q t = Ok first) /\
  (is_Some (specialized_clause_banks !! t) <->
   t ∈ [py "nda"; py "employment"; py "noncompete"]) /\
  retrieve_clause q t =
    Ok (if decide (t = py "nda") then
          py "All confidential information shall remain the exclusive property of the disclosing party and shall not be used for any purpose other than the intended business collaboration."
        else if decide (t = py "employment") then
          py "The employee agrees to abide by the company's code of conduct and intellectual property guidelines as per Indian labor laws."
        else if decide (t = py "noncompete") then
          py "The restricted period shall not exceed two years and shall be limited to the metropolitan areas where the employer conducts primary business."
        else
          py "This Agreement shall be governed by the laws of India and subject to the jurisdiction of courts in New Delhi.") /\
  (forall q', retrieve_clause q' t = retrieve_clause q t).
Proof.
  assert (Hcases :
    t = py "nda" \/ t = py "employment" \/ t = py "noncompete" \/
    specialized_clause_banks !! t = None).
  { destruct (decide (t ∈ [py "nda"; py "employment"; py "noncompete"])) as [Ht|Hn].
    - repeat (apply elem_of_cons in Ht as [-> | Ht]); auto.
      by apply elem_of_nil in Ht.
    - right; right; right. apply eq_None_not_Some.
      by rewrite specialized_clause_banks_keys. }
  split; [apply retrieve_clause_Ok|].
  split; [apply specialized_clause_banks_keys|split; [|done]].
  destruct Hcases as [-> | [-> | [-> | Hnone]]]; [reflexivity ..|].
  unfold retrieve_clause. rewrite Hnone.
  repeat case_decide; subst; first [reflexivity | by vm_compute in Hnone].
Qed.

(** ** Pre-render normalization *)

Lemma replace_char (s : str) (c : N) (new : str) :
  replace s [c] new = flat_map (fun x => if x =? c then new else [x]) s.
Proof.
  unfold replace. induction s as [|x s IH]; [done|].
  simpl. rewrite andb_true_r, (N.eqb_sym c x), IH.
  by destruct (x =? c).
Qed.

Lemma flat_map_flat_map {A B C : Type} (f : A -> list B) (g : B -> list C)
    (l : list A) :
  flat_map g (flat_map f l) = flat_map (fun x => flat_map g (f x)) l.
Proof.
  induction l as [|x l IH]; [done|]. simpl. by rewrite flat_map_app, IH.
Qed.

(** C4: the normalization maps every character to its plain equivalent,
    in order: an apostrophe for a right single quotation mark, a double
    quote for a left or right double quotation mark, Rs. for the rupee sign,
    and the character itself otherwise. *)
Theorem normalize_plain_equivalent (content : str) :
  normalize content = flat_map plain_equivalent content.
Proof.
  unfold normalize. rewrite !replace_char, !flat_map_flat_map.
  apply flat_map_ext. intros c. unfold plain_equivalent.
  destruct (c =? RSQUO) eqn:H1; [reflexivity|].
  destruct (c =? LDQUO) eqn:H2, (c =? RDQUO) eqn:H3, (c =? RUPEE) eqn:H4;
    repeat (progress (simpl; rewrite ?H2, ?H3, ?H4)); reflexivity.
Qed.

(** Every character other than the four replaced ones is unchanged. *)
Lemma plain_equivalent_other (c : N) :
  c ∉ [RSQUO; LDQUO; RDQUO; RUPEE] -> plain_equivalent c = [c].
Proof.
  intros Hc. unfold plain_equivalent.
  destruct (N.eqb_spec c RSQUO) as [->|_]; [destruct Hc; set_solver|].
  destruct (N.eqb_spec c LDQUO) as [->|_]; [destruct Hc; set_solver|].
  destruct (N.eqb_spec c RDQUO) as [->|_]; [destruct Hc; set_solver|].
  destruct (N.eqb_spec c RUPEE) as [->|_]; [destruct Hc; set_solver|].
  done.
Qed.

Lemma normalize_example :
  normalize ([LDQUO] ++ py "Acme" ++ [RSQUO] ++ py "s" ++ [RDQUO; 32; RUPEE] ++ py "500")
  = [DQUOTE] ++ py "Acme's" ++ [DQUOTE] ++ py " Rs.500".
Proof. reflexivity. Qed.

(** ** Template generation *)

Lemma contract_types_NoDup : NoDup contract_types.
Proof. apply (bool_decide_unpack _). by vm_compute. Qed.

(** Rewrites the lookup of a key that a dict display binds. *)
Ltac dict_lookup_known :=
  erewrite dict_lookup_Some;
  [ | exact contract_types_NoDup
    | repeat first [apply list_elem_of_here | apply list_elem_of_further] ].

Lemma contract_types_cases (t : str) :
  t ∈ contract_types ->
  t = py "nda" \/ t = py "contractor" \/ t = py "sla" \/ t = py "partnership" \/
  t = py "sales" \/ t = py "employment" \/ t = py "lease" \/ t = py "mou" \/
  t = py "noncompete".
Proof.
  intros Ht. repeat (apply elem_of_cons in Ht as [-> | Ht]); auto 10.
  by apply elem_of_nil in Ht.
Qed.

(** C3: for a validated request and any refined clause, the template text
    is a function of its inputs and contains both party names, the
    duration, the refined clause and the jurisdiction verbatim. *)
Theorem get_legal_template_contains
    (raw : RawRequest) (data : ContractRequest) (clause : str) :
  parse_obj raw = inr data ->
  substring_of (party_a data) (get_legal_template data clause) /\
  substring_of (party_b data) (get_legal_template data clause) /\
  substring_of (duration data) (get_legal_template data clause) /\
  substring_of clause (get_legal_template data clause) /\
  substring_of (jurisdiction data) (get_legal_template data clause) /\
  (forall data' clause',
     data' = data -> clause' = clause ->
     get_legal_template data' clause' = get_legal_template data clause).
Proof.
  intros Ht%parse_obj_contract_type%contract_types_cases.
  repeat (split; [|try by intros ? ? -> ->]).
  all: unfold get_legal_template; cbv zeta.
  all: destruct Ht as [Ht|[Ht|[Ht|[Ht|[Ht|[Ht|[Ht|[Ht|Ht]]]]]]]]; rewrite Ht;
    dict_lookup_known; unfold default, from_option, id; by find_substring.
Qed.

Lemma get_legal_template_contains_witness :
  parse_obj scenario_A = inr request_A /\
  substring_of (py "Acme Inc") (get_legal_template request_A refined_A) /\
  substring_of (py "Beta LLC") (get_legal_template request_A refined_A) /\
  substring_of (py "2 years") (get_legal_template request_A refined_A) /\
  substring_of refined_A (get_legal_template request_A refined_A) /\
  substring_of (py "New Delhi") (get_legal_template request_A refined_A).
Proof.
  assert (H : parse_obj scenario_A = inr request_A) by reflexivity.
  split; [exact H|].
  pose proof (get_legal_template_contains scenario_A request_A refined_A H)
    as (Ha & Hb & Hd & Hc & Hj & _).
  auto.
Defined.

Lemma get_legal_template_unknown (data : ContractRequest) (clause : str) :
  contract_type data ∉ contract_types ->
  get_legal_template data clause = py "Invalid contract type.".
Proof.
  intros Ht. unfold get_legal_template. cbv zeta.
  rewrite dict_lookup_None; [done | exact Ht].
Qed.

Lemma get_legal_template_known (data : ContractRequest) (clause : str) :
  contract_type data ∈ contract_types ->
  get_legal_template data clause <> py "Invalid contract type.".
Proof.
  intros Ht%contract_types_cases. unfold get_legal_template. cbv zeta.
  destruct Ht as [Ht|[Ht|[Ht|[Ht|[Ht|[Ht|[Ht|[Ht|Ht]]]]]]]]; rewrite Ht;
    dict_lookup_known; unfold default, from_option, id;
    intros Heq; apply (f_equal (take 2)) in Heq; by vm_compute in Heq.
Qed.

(** C9: template selection returns the sentinel text, and does not raise,
    exactly for the contract types outside the nine known ones; a request
    that passed validation has one of the nine types, so its template is
    never the sentinel. *)
Theorem invalid_contract_type_sentinel (data : ContractRequest) (clause : str) :
  (get_legal_template data clause = py "Invalid contract type." <->
   contract_type data ∉ contract_types) /\
  (forall raw : RawRequest,
     parse_obj raw = inr data ->
     contract_type data ∈ contract_types /\
     get_legal_template data clause <> py "Invalid contract type.").
Proof.
  split.
  - split; [|apply get_legal_template_unknown].
    intros Heq Ht. by apply (get_legal_template_known data clause).
  - intros raw Ht%parse_obj_contract_type.
    split; [done | by apply get_legal_template_known].
Qed.

(** *** Lines of a text *)

Lemma split_until_sep (p r : str) (sep : N) :
  sep ∉ p -> split (p ++ sep :: r) sep = p :: split r sep.
Proof.
  induction p as [|c p IH]; simpl; intros Hp.
  - by rewrite N.eqb_refl.
  - apply not_elem_of_cons in Hp as [Hc Hp].
    destruct (N.eqb_spec c sep) as [->|_]; [done|]. by rewrite IH.
Qed.

Lemma split_after_sep (x s : str) (sep : N) :
  exists l ls, split (x ++ sep :: s) sep = (l :: ls) ++ split s sep.
Proof.
  induction x as [|c x (l & ls & IH)]; simpl.
  - rewrite N.eqb_refl. by exists [], [].
  - destruct (c =? sep).
    + exists [], (l :: ls). by rewrite IH.
    + rewrite IH. by exists (c :: l), ls.
Qed.

Lemma split_line (x p r : str) (sep : N) :
  sep ∉ p -> p ∈ split (x ++ sep :: p ++ sep :: r) sep.
Proof.
  intros Hp. destruct (split_after_sep x (p ++ sep :: r) sep) as (l & ls & ->).
  rewrite split_until_sep by done.
  apply elem_of_app. right. apply list_elem_of_here.
Qed.

(** C8: for a validated lease request without property address the
    template is produced (template generation has no failing step) and its
    property line reads "1. Property: None": the absent value is rendered by
    its name. *)
Theorem lease_without_property_address
    (raw : RawRequest) (data : ContractRequest) (clause : str) :
  parse_obj raw = inr data ->
  contract_type data = py "lease" ->
  property_address data = None ->
  get_legal_template data clause =
    py "LEASE AGREEMENT\n\nThis agreement is made between " ++ party_a data
    ++ py " (Lessor) and " ++ party_b data
    ++ py " (Lessee).\n\n1. Property: None\n2. Duration: " ++ duration data
    ++ py "\n3. Legal Clause: " ++ clause
    ++ py "\n4. Jurisdiction: " ++ jurisdiction data
    ++ py "\n\nSigned: " ++ party_a data ++ py ", " ++ party_b data /\
  py "1. Property: None" ∈ split (get_legal_template data clause) LF.
Proof.
  intros _ Ht Hp.
  assert (Htext : get_legal_template data clause =
    py "LEASE AGREEMENT\n\nThis agreement is made between " ++ party_a data
    ++ py " (Lessor) and " ++ party_b data
    ++ py " (Lessee).\n\n1. Property: None\n2. Duration: " ++ duration data
    ++ py "\n3. Legal Clause: " ++ clause
    ++ py "\n4. Jurisdiction: " ++ jurisdiction data
    ++ py "\n\nSigned: " ++ party_a data ++ py ", " ++ party_b data).
  { unfold get_legal_template. cbv zeta. rewrite Ht, Hp.
    dict_lookup_known. reflexivity. }
  split; [exact Htext|]. rewrite Htext.
  replace (py "LEASE AGREEMENT\n\nThis agreement is made between " ++ party_a data
    ++ py " (Lessor) and " ++ party_b data
    ++ py " (Lessee).\n\n1. Property: None\n2. Duration: " ++ duration data
    ++ py "\n3. Legal Clause: " ++ clause
    ++ py "\n4. Jurisdiction: " ++ jurisdiction data
    ++ py "\n\nSigned: " ++ party_a data ++ py ", " ++ party_b data)
    with ((py "LEASE AGREEMENT\n\nThis agreement is made between " ++ party_a data
           ++ py " (Lessor) and " ++ party_b data ++ py " (Lessee).\n")
          ++ LF :: py "1. Property: None"
          ++ LF :: (py "2. Duration: " ++ duration data
                    ++ py "\n3. Legal Clause: " ++ clause
                    ++ py "\n4. Jurisdiction: " ++ jurisdiction data
                    ++ py "\n\nSigned: " ++ party_a data ++ py ", " ++ party_b data))
    by (rewrite <- !app_assoc; reflexivity).
  apply split_line. apply (bool_decide_unpack _). by vm_compute.
Qed.

Lemma lease_without_property_address_witness :
  parse_obj scenario_C = inr request_C /\
  contract_type request_C = py "lease" /\
  property_address request_C = None /\
  py "1. Property: None" ∈ split (get_legal_template request_C refined_A) LF.
Proof.
  assert (H : parse_obj scenario_C = inr request_C) by reflexivity.
  split; [exact H|]. split; [reflexivity|]. split; [reflexivity|].
  exact (proj2 (lease_without_property_address scenario_C request_C refined_A
                  H eq_refl eq_refl)).
Defined.

(** ** The request pipeline *)

Lemma bind_Ok {A B : Type} (m : M A) (k : A -> M B) (fs fs1 : files) (a : A) :
  m fs = (Ok a, fs1) -> (m ≫= k) fs = k a fs1.
Proof. intros H. unfold mbind, M_bind. by rewrite H. Qed.

Lemma bind_Raise {A B : Type} (m : M A) (k : A -> M B) (fs fs1 : files) (e : exn) :
  m fs = (Raise e, fs1) -> (m ≫= k) fs = (Raise e, fs1).
Proof. intros H. unfold mbind, M_bind. by rewrite H. Qed.

Lemma lift_eq {A : Type} (r : result A) (fs : files) : lift r fs = (r, fs).
Proof. reflexivity. Qed.

(** Refinement reads and writes no file. *)
Lemma refine_clause_files (w : World) (clause t : str) (fs fs' : files)
    (r : result str) :
  refine_clause_with_legal_expertise w clause t fs = (r, fs') -> fs' = fs.
Proof.
  unfold refine_clause_with_legal_expertise, mbind, M_bind, lift, raise, mret,
    M_ret.
  destruct (refinement_prompt clause t) as [prompt|e]; [|by intros [= _ <-]].
  destruct (completions_create w _) as [[|[text|] choices]|e];
    by intros [= _ <-].
Qed.

(** Up to the reply of the file-hosting service. *)
Lemma generate_contract_try_reply (w : World) (data : ContractRequest)
    (fs : files) (refined : str) (upload_res : http_response) :
  reaches_upload w data fs refined upload_res ->
  generate_contract_try w data fs =
  handle_reply w (get_legal_template data refined) upload_res
    (<[pdf_name w := pdf_document (get_legal_template data refined)]> fs).
Proof.
  intros (raw & Hraw & Href & Hpdf & Hopen & Hpost).
  unfold generate_contract_try.
  rewrite (bind_Ok _ _ fs fs raw) by (by rewrite lift_eq, Hraw).
  rewrite (bind_Ok _ _ fs fs refined) by done.
  cbv zeta. fold (pdf_name w).
  rewrite (bind_Ok _ _ fs
             (<[pdf_name w := pdf_document (get_legal_template data refined)]> fs) tt)
    by (unfold save_as_pdf; by rewrite Hpdf).
  rewrite (bind_Ok _ _ _ _ (pdf_document (get_legal_template data refined)))
    by (unfold open_rb; by rewrite lookup_insert_eq, Hopen).
  rewrite (bind_Ok _ _ _ _ upload_res) by (by rewrite lift_eq, Hpost).
  reflexivity.
Qed.

Lemma json_eq_str_true (v : json) (s : str) :
  json_eq_str v s = true <-> v = JStr s.
Proof.
  destruct v; simpl; try (split; [done | by intros [=]]).
  rewrite bool_decide_eq_true. split; [by intros -> | by intros [= ->]].
Qed.

Lemma handle_reply_status (w : World) (text : str) (upload_res : http_response)
    (fs : files) :
  status_code upload_res <> 200%Z ->
  handle_reply w text upload_res fs =
  (Raise (Exception (py "Upload failed: " ++ str_of_int (status_code upload_res))),
   fs).
Proof.
  intros Hs. unfold handle_reply.
  by destruct (Z.eqb_spec (status_code upload_res) 200).
Qed.

Lemma handle_reply_Ok (w : World) (text : str) (upload_res : http_response)
    (fs fs' : files) (body : gmap str json) :
  handle_reply w text upload_res fs = (Ok body, fs') <->
  status_code upload_res = 200%Z /\
  status_field_ok upload_res /\
  exists url, download_page upload_res url /\
              body = success_body text url /\ fs' = fs.
Proof.
  unfold handle_reply, status_field_ok, download_page, mbind, M_bind, lift,
    raise, mret, M_ret.
  destruct (Z.eqb_spec (status_code upload_res) 200) as [Hs|Hs]; cbv beta iota;
    unfold negb.
  2: { split; [done | by intros [? _]]. }
  destruct (json_result upload_res) as [j|e].
  2: { split; [done | by intros (_ & (? & ? & _) & _)]. }
  destruct (get j (py "status")) as [st|e] eqn:Hst.
  2: { split; [done|]. intros (_ & (? & [= <-] & ?) & _). congruence. }
  destruct (json_eq_str st (py "ok")) eqn:Hok.
  2: { split; [done|]. intros (_ & (? & [= <-] & Hst') & _).
       rewrite Hst in Hst'. injection Hst' as ->. by vm_compute in Hok. }
  apply json_eq_str_true in Hok as ->.
  destruct (getitem j (py "data")) as [d|e] eqn:Hd.
  2: { split; [done|]. intros (_ & _ & url & (? & ? & [= <-] & ? & _) & _).
       congruence. }
  destruct (getitem d (py "downloadPage")) as [url|e] eqn:Hu.
  - split.
    + intros [= <- <-]. split; [done|]. split; [by exists j|].
      exists url. split; [by exists j, d|done].
    + intros (_ & _ & url' & (? & d' & [= <-] & Hd' & Hu') & -> & ->).
      rewrite Hd in Hd'. injection Hd' as <-. rewrite Hu in Hu'.
      by injection Hu' as <-.
  - split; [done|].
    intros (_ & _ & url' & (? & d' & [= <-] & Hd' & Hu') & _).
    rewrite Hd in Hd'. injection Hd' as <-. congruence.
Qed.

(** A step that raises ends the [try] block with its exception. *)
Lemma step_raises_try (w : World) (data : ContractRequest) (fs : files) (e : exn) :
  step_raises w data fs e ->
  exists fs', generate_contract_try w data fs = (Raise e, fs').
Proof.
  destruct 1 as [raw e fs' Hraw Href
                |raw refined e Hraw Href Hpdf
                |raw refined e Hraw Href Hpdf Hopen
                |raw refined e Hraw Href Hpdf Hopen Hpost
                |refined upload_res e fs' Hreach Hreply].
  - exists fs'. unfold generate_contract_try.
    rewrite (bind_Ok _ _ fs fs raw) by (rewrite lift_eq, Hraw; reflexivity).
    apply bind_Raise, Href.
  - exists fs. unfold generate_contract_try.
    rewrite (bind_Ok _ _ fs fs raw) by (rewrite lift_eq, Hraw; reflexivity).
    rewrite (bind_Ok _ _ fs fs refined) by exact Href.
    cbv zeta. fold (pdf_name w). apply bind_Raise.
    unfold save_as_pdf. rewrite Hpdf. reflexivity.
  - exists (<[pdf_name w := pdf_document (get_legal_template data refined)]> fs).
    unfold generate_contract_try.
    rewrite (bind_Ok _ _ fs fs raw) by (rewrite lift_eq, Hraw; reflexivity).
    rewrite (bind_Ok _ _ fs fs refined) by exact Href.
    cbv zeta. fold (pdf_name w).
    rewrite (bind_Ok _ _ fs
               (<[pdf_name w := pdf_document (get_legal_template data refined)]> fs) tt)
      by (unfold save_as_pdf; rewrite Hpdf; reflexivity).
    apply bind_Raise. unfold open_rb. rewrite lookup_insert_eq, Hopen. reflexivity.
  - exists (<[pdf_name w := pdf_document (get_legal_template data refined)]> fs).
    unfold generate_contract_try.
    rewrite (bind_Ok _ _ fs fs raw) by (rewrite lift_eq, Hraw; reflexivity).
    rewrite (bind_Ok _ _ fs fs refined) by exact Href.
    cbv zeta. fold (pdf_name w).
    rewrite (bind_Ok _ _ fs
               (<[pdf_name w := pdf_document (get_legal_template data refined)]> fs) tt)
      by (unfold save_as_pdf; rewrite Hpdf; reflexivity).
    rewrite (bind_Ok _ _ _ _ (pdf_document (get_legal_template data refined)))
      by (unfold open_rb; rewrite lookup_insert_eq, Hopen; reflexivity).
    apply bind_Raise. rewrite lift_eq, Hpost. reflexivity.
  - exists fs'. rewrite (generate_contract_try_reply _ _ _ _ _ Hreach).
    exact Hreply.
Qed.

(** Either the upload request is answered, or a step before it raises. *)
Lemma reaches_upload_or_raises (w : World) (data : ContractRequest) (fs : files) :
  (exists refined upload_res, reaches_upload w data fs refined upload_res) \/
  (exists e, step_raises w data fs e).
Proof.
  destruct (retrieve_clause_Ok (clause_query data) (contract_type data))
    as (raw & _ & _ & Hraw).
  destruct (refine_clause_with_legal_expertise w raw (contract_type data) fs)
    as [[refined|e] fs1] eqn:Href.
  2: { right. exists e. eapply refinement_raises; eassumption. }
  pose proof (refine_clause_files _ _ _ _ _ _ Href) as ->.
  destruct (fpdf_raises w (pdf_document (get_legal_template data refined))
              (pdf_name w)) as [e|] eqn:Hpdf.
  { right. exists e. eapply rendering_raises; eassumption. }
  destruct (open_raises w (pdf_name w)) as [e|] eqn:Hopen.
  { right. exists e. eapply opening_raises; eassumption. }
  destruct (requests_post w (py "https://store1.gofile.io/uploadFile") (pdf_name w)
              (pdf_document (get_legal_template data refined)))
    as [upload_res|e] eqn:Hpost.
  - left. exists refined, upload_res, raw. auto.
  - right. exists e. eapply upload_raises; eassumption.
Qed.

(** The [try] block returns only through the handling of a reply. *)
Lemma generate_contract_try_Ok (w : World) (data : ContractRequest)
    (fs fs' : files) (body : gmap str json) :
  generate_contract_try w data fs = (Ok body, fs') ->
  exists refined upload_res,
    reaches_upload w data fs refined upload_res /\
    handle_reply w (get_legal_template data refined) upload_res
      (<[pdf_name w := pdf_document (get_legal_template data refined)]> fs)
    = (Ok body, fs').
Proof.
  intros H.
  destruct (reaches_upload_or_raises w data fs)
    as [(refined & upload_res & Hreach) | (e & He)].
  - exists refined, upload_res. split; [exact Hreach|].
    rewrite <- (generate_contract_try_reply _ _ _ _ _ Hreach). exact H.
  - apply step_raises_try in He as (fs1 & He). congruence.
Qed.

(** The [try] block raises only what one of its steps raises. *)
Lemma generate_contract_try_Raise (w : World) (data : ContractRequest)
    (fs fs' : files) (e : exn) :
  generate_contract_try w data fs = (Raise e, fs') -> step_raises w data fs e.
Proof.
  intros H.
  destruct (reaches_upload_or_raises w data fs)
    as [(refined & upload_res & Hreach) | (e0 & He)].
  - eapply reply_raises; [exact Hreach|].
    rewrite <- (generate_contract_try_reply _ _ _ _ _ Hreach). exact H.
  - destruct (step_raises_try _ _ _ _ He) as (fs1 & He1).
    rewrite H in He1. injection He1 as -> _. exact He.
Qed.

Lemma generate_contract_Return (w : World) (data : ContractRequest)
    (fs fs' : files) (body : gmap str json) :
  generate_contract w data fs = (Return body, fs') <->
  generate_contract_try w data fs = (Ok body, fs').
Proof.
  unfold generate_contract.
  destruct (generate_contract_try w data fs) as [[body0|e] fs0].
  - split; by intros [= <- <-].
  - split; by intros [=].
Qed.

Lemma generate_contract_HTTPException (w : World) (data : ContractRequest)
    (fs fs' : files) (status : Z) (detail : str) :
  generate_contract w data fs = (HTTPException status detail, fs') <->
  exists e, generate_contract_try w data fs = (Raise e, fs') /\
            status = 400%Z /\
            detail = py "Contract generation failed: " ++ exn_str w e.
Proof.
  unfold generate_contract.
  destruct (generate_contract_try w data fs) as [[body0|e] fs0].
  - split; [by intros [=] | by intros (? & [=] & _)].
  - split.
    + intros [= <- <- <-]. by exists e.
    + by intros (e' & [= <- <-] & -> & ->).
Qed.

Lemma json_body_failure (status : Z) (detail : str) :
  json_body (HTTPException status detail) !! py "contract" = None /\
  json_body (HTTPException status detail) !! py "pdf_url" = None.
Proof.
  split; apply dict_lookup_None; apply (bool_decide_unpack _); by vm_compute.
Qed.

(** C5: whatever a step of the request pipeline raises (refinement,
    rendering, file I/O, upload, handling of the reply) is answered by an
    [HTTPException] with status 400 whose detail is "Contract generation
    failed: " followed by the text of the exception; every failure response
    arises in this way, and its body has neither a contract nor a pdf_url
    field. *)
Theorem failures_become_uniform_response
    (w : World) (data : ContractRequest) (fs : files) :
  (forall e, step_raises w data fs e ->
     exists fs',
       generate_contract w data fs =
       (HTTPException 400 (py "Contract generation failed: " ++ exn_str w e), fs')) /\
  (forall r fs',
     generate_contract w data fs = (r, fs') -> failed r ->
     (exists e, step_raises w data fs e /\
                r = HTTPException 400
                      (py "Contract generation failed: " ++ exn_str w e)) /\
     starts_with (py "Contract generation failed: ") (detail_of r) = true /\
     json_body r !! py "contract" = None /\
     json_body r !! py "pdf_url" = None).
Proof.
  split.
  - intros e (fs' & He)%step_raises_try. exists fs'.
    apply generate_contract_HTTPException. by exists e.
  - intros r fs' Hr (status & detail & ->).
    apply generate_contract_HTTPException in Hr as (e & He & -> & ->).
    split; [|split].
    + exists e. split; [|done]. by eapply generate_contract_try_Raise.
    + apply starts_with_app.
    + apply json_body_failure.
Qed.

(** Scenario B: HTTP 500 from the file-hosting service. *)
Lemma scenario_B_response :
  fst (generate_contract (stub_world (Ok reply_B)) request_A ∅) =
  HTTPException 400 (py "Contract generation failed: Upload failed: 500").
Proof. reflexivity. Qed.

(** ** The upload step *)

Lemma download_page_unique (upload_res : http_response) (url url' : json) :
  download_page upload_res url -> download_page upload_res url' -> url = url'.
Proof.
  intros (j & d & Hj & Hd & Hu) (j' & d' & Hj' & Hd' & Hu'). congruence.
Qed.

Lemma success_body_lookup (text : str) (url : json) :
  success_body text url !! py "message"
    = Some (JStr (py "Contract generated and uploaded.")) /\
  success_body text url !! py "contract" = Some (JStr text) /\
  success_body text url !! py "pdf_url" = Some url.
Proof.
  assert (NoDup [py "message"; py "contract"; py "pdf_url"]) as Hnd
    by (apply (bool_decide_unpack _); by vm_compute).
  unfold success_body.
  repeat split; apply dict_lookup_Some; try exact Hnd;
    repeat first [apply list_elem_of_here | apply list_elem_of_further].
Qed.

Lemma generate_contract_reply (w : World) (data : ContractRequest) (fs : files)
    (refined : str) (upload_res : http_response) :
  reaches_upload w data fs refined upload_res ->
  generate_contract w data fs =
  match handle_reply w (get_legal_template data refined) upload_res
          (<[pdf_name w := pdf_document (get_legal_template data refined)]> fs)
  with
  | (Ok body, fs') => (Return body, fs')
  | (Raise e, fs') =>
      (HTTPException 400 (py "Contract generation failed: " ++ exn_str w e), fs')
  end.
Proof.
  intros Hreach. unfold generate_contract.
  by rewrite (generate_contract_try_reply _ _ _ _ _ Hreach).
Qed.

(** C6, as the code has it: once the upload request is answered, the
    request fails if the HTTP status is not 200, with a detail that contains
    "Upload failed", or if the status field of the body is not "ok"; it
    succeeds exactly when the status is 200, the status field is "ok" and the
    body has the nested field data.downloadPage, and then pdf_url is that
    field. *)
Theorem upload_outcome (w : World) (data : ContractRequest) (fs : files)
    (refined : str) (upload_res : http_response) :
  reaches_upload w data fs refined upload_res ->
  (status_code upload_res <> 200%Z \/ ~ status_field_ok upload_res ->
   failed (fst (generate_contract w data fs))) /\
  (status_code upload_res <> 200%Z ->
   exists detail,
     fst (generate_contract w data fs) = HTTPException 400 detail /\
     detail = py "Contract generation failed: Upload failed: "
              ++ str_of_int (status_code upload_res) /\
     substring_of (py "Upload failed") detail) /\
  (forall body,
     fst (generate_contract w data fs) = Return body <->
     status_code upload_res = 200%Z /\
     status_field_ok upload_res /\
     exists url, download_page upload_res url /\
                 body = success_body (get_legal_template data refined) url) /\
  (forall body url,
     fst (generate_contract w data fs) = Return body ->
     download_page upload_res url ->
     body !! py "pdf_url" = Some url).
Proof.
  intros Hreach. rewrite (generate_contract_reply _ _ _ _ _ Hreach).
  set (text := get_legal_template data refined).
  set (fs1 := <[pdf_name w := pdf_document text]> fs).
  assert (Hsucc : forall body,
    fst (match handle_reply w text upload_res fs1 with
         | (Ok body, fs') => (Return body, fs')
         | (Raise e, fs') =>
             (HTTPException 400
                (py "Contract generation failed: " ++ exn_str w e), fs')
         end) = Return body <->
    status_code upload_res = 200%Z /\ status_field_ok upload_res /\
    exists url, download_page upload_res url /\ body = success_body text url).
  { intros body.
    destruct (handle_reply w text upload_res fs1) as [[body0|e] fs'] eqn:Hh.
    - apply handle_reply_Ok in Hh as (Hs & Hok & url & Hurl & -> & ->).
      simpl. split.
      + intros [= <-]. eauto.
      + intros (_ & _ & url' & Hurl' & ->).
        by rewrite (download_page_unique _ _ _ Hurl Hurl').
    - simpl. split; [done|].
      intros (Hs & Hok & url & Hurl & ->).
      assert (handle_reply w text upload_res fs1 = (Ok (success_body text url), fs1))
        as Hh' by (apply handle_reply_Ok; eauto 10).
      congruence. }
  split; [|split; [|split]].
  - intros Hbad.
    destruct (handle_reply w text upload_res fs1) as [[body0|e] fs'] eqn:Hh.
    + apply handle_reply_Ok in Hh as (Hs & Hok & _). by destruct Hbad.
    + by eexists _, _.
  - intros Hs. rewrite (handle_reply_status _ _ _ _ Hs).
    cbv beta iota delta [fst exn_str].
    eexists. split; [reflexivity|]. split.
    + change (py "Contract generation failed: Upload failed: ")
        with (py "Contract generation failed: " ++ py "Upload failed: ").
      by rewrite <- app_assoc.
    + change (py "Upload failed: ") with (py "Upload failed" ++ py ": ").
      rewrite <- app_assoc. by find_substring.
  - exact Hsucc.
  - intros body url Hbody Hurl.
    apply Hsucc in Hbody as (_ & _ & url' & Hurl' & ->).
    rewrite (download_page_unique _ _ _ Hurl Hurl').
    apply success_body_lookup.
Qed.

Lemma reaches_upload_stub (reply : http_response) :
  reaches_upload (stub_world (Ok reply)) request_A ∅ refined_A reply.
Proof.
  exists (py "All confidential information shall remain the exclusive property of the disclosing party and shall not be used for any purpose other than the intended business collaboration.").
  repeat split; reflexivity.
Qed.

Lemma upload_outcome_witness :
  reaches_upload (stub_world (Ok reply_A)) request_A ∅ refined_A reply_A /\
  fst (generate_contract (stub_world (Ok reply_A)) request_A ∅)
    = Return (success_body (get_legal_template request_A refined_A)
                (JStr (py "https://example/x"))) /\
  success_body (get_legal_template request_A refined_A)
    (JStr (py "https://example/x")) !! py "pdf_url"
    = Some (JStr (py "https://example/x")).
Proof.
  pose proof (reaches_upload_stub reply_A) as Hreach.
  assert (Hret : fst (generate_contract (stub_world (Ok reply_A)) request_A ∅)
                 = Return (success_body (get_legal_template request_A refined_A)
                             (JStr (py "https://example/x"))))
    by (vm_compute; reflexivity).
  assert (Hpage : download_page reply_A (JStr (py "https://example/x"))).
  { eexists _, _. repeat split; reflexivity. }
  split; [exact Hreach|]. split; [exact Hret|].
  exact (proj2 (proj2 (proj2
           (upload_outcome _ _ _ _ _ Hreach))) _ _ Hret Hpage).
Defined.

(** C6, as the claim states it, fails: with HTTP 200 and the body
    [{"status": "ok"}] the status is a success and the status field is "ok",
    yet the request fails, for want of data.downloadPage. *)
Lemma upload_fails_without_download_page :
  reaches_upload (stub_world (Ok reply_without_data)) request_A ∅ refined_A
    reply_without_data /\
  ~ (failed (fst (generate_contract (stub_world (Ok reply_without_data))
                    request_A ∅)) <->
     (status_code reply_without_data <> 200%Z \/
      ~ status_field_ok reply_without_data)).
Proof.
  split; [apply reaches_upload_stub|].
  intros [Hfail _].
  destruct Hfail as [Hs | Hok].
  - by eexists _, _.
  - by apply Hs.
  - apply Hok. eexists. split; reflexivity.
Qed.

(** ** The returned contract text *)

Lemma pdf_document_lines (content line : str) :
  multi_cell 0 8 line ∈ pdf_document content <->
  line ∈ split (normalize content) LF.
Proof.
  unfold pdf_document. cbv zeta. rewrite elem_of_app. split.
  - intros [Hhead | Hbody].
    + repeat (apply elem_of_cons in Hhead as [Hhead | Hhead]; [done|]).
      by apply elem_of_nil in Hhead.
    + apply list_elem_of_In, in_map_iff in Hbody as (line' & [= ->] & Hline).
      by apply list_elem_of_In.
  - intros Hline. right. apply list_elem_of_In, in_map_iff.
    exists line. split; [done|]. by apply list_elem_of_In.
Qed.

(** C10: on success the contract field of the response is the template
    text exactly as [get_legal_template] produced it, whereas the file that
    was written and uploaded holds the lines of the normalized text. *)
Theorem contract_text_as_assembled (w : World) (data : ContractRequest)
    (fs fs' : files) (body : gmap str json) :
  generate_contract w data fs = (Return body, fs') ->
  exists refined upload_res,
    reaches_upload w data fs refined upload_res /\
    body !! py "contract" = Some (JStr (get_legal_template data refined)) /\
    fs' !! pdf_name w = Some (pdf_document (get_legal_template data refined)) /\
    (forall line,
       multi_cell 0 8 line ∈ pdf_document (get_legal_template data refined) <->
       line ∈ split (normalize (get_legal_template data refined)) LF).
Proof.
  intros (refined & upload_res & Hreach & Hh)%generate_contract_Return
    %generate_contract_try_Ok.
  apply handle_reply_Ok in Hh as (_ & _ & url & _ & -> & ->).
  exists refined, upload_res. split; [exact Hreach|].
  split; [apply success_body_lookup|].
  split; [apply lookup_insert_eq | apply pdf_document_lines].
Qed.

(** The text assembled for [request_quoted], and the reply to it. *)
Lemma contract_text_as_assembled_witness :
  generate_contract (stub_world (Ok reply_A)) request_quoted ∅ =
    (Return (success_body (get_legal_template request_quoted refined_A)
               (JStr (py "https://example/x"))),
     {[ pdf_name (stub_world (Ok reply_A)) :=
          pdf_document (get_legal_template request_quoted refined_A) ]}) /\
  exists refined upload_res,
    reaches_upload (stub_world (Ok reply_A)) request_quoted ∅ refined upload_res /\
    success_body (get_legal_template request_quoted refined_A)
      (JStr (py "https://example/x")) !! py "contract"
    = Some (JStr (get_legal_template request_quoted refined)) /\
    ({[ pdf_name (stub_world (Ok reply_A)) :=
          pdf_document (get_legal_template request_quoted refined_A) ]} : files)
      !! pdf_name (stub_world (Ok reply_A))
    = Some (pdf_document (get_legal_template request_quoted refined)) /\
    (forall line,
       multi_cell 0 8 line ∈ pdf_document (get_legal_template request_quoted refined) <->
       line ∈ split (normalize (get_legal_template request_quoted refined)) LF).
Proof.
  assert (H : generate_contract (stub_world (Ok reply_A)) request_quoted ∅ =
    (Return (success_body (get_legal_template request_quoted refined_A)
               (JStr (py "https://example/x"))),
     {[ pdf_name (stub_world (Ok reply_A)) :=
          pdf_document (get_legal_template request_quoted refined_A) ]}))
    by (vm_compute; reflexivity).
  split; [exact H|].
  exact (contract_text_as_assembled _ _ _ _ _ H).
Defined.

(** The quotation mark of the party name stays in the returned text and is
    replaced in every line of the rendered file. *)
Lemma quoted_party_name_example :
  contains (get_legal_template request_quoted refined_A) (party_a request_quoted)
    = true /\
  contains (get_legal_template request_quoted refined_A) [RSQUO] = true /\
  forallb (fun line => negb (contains line [RSQUO]))
    (split (normalize (get_legal_template request_quoted refined_A)) LF) = true /\
  contains (normalize (get_legal_template request_quoted refined_A))
    (py "Acme's Inc") = true.
Proof. repeat split; reflexivity. Qed.

(** * Further properties of the module *)

(** ** Validation of a request *)











(** ** The accepted durations *)

(** X3: the duration validator returns its argument unchanged or raises a
    [ValueError]; it returns exactly for a non-empty run of decimal digits,
    a non-empty run of white space and one of the six unit words, followed
    by nothing or by a single line feed. *)
Theorem validate_duration_shape (v : str) :
  (validate_duration v = Ok v \/
   validate_duration v =
     Raise (ValueError
              (py "Duration must be in format '# year/years/month/months/day/days'"))) /\
  ((exists v', validate_duration v = Ok v') <->
   exists digits spaces unit tail,
     v = digits ++ spaces ++ unit ++ tail /\
     digits <> [] /\ Forall (fun c => is_decimal c = true) digits /\
     spaces <> [] /\ Forall (fun c => is_space c = true) spaces /\
     unit ∈ [py "year"; py "years"; py "month"; py "months"; py "day"; py "days"] /\
     (tail = [] \/ tail = [LF])).
Proof.
  split.
  - unfold validate_duration. destruct (re_match duration_pattern v); auto.
  - assert (Hok : (exists v', validate_duration v = Ok v') <->
                  re_match duration_pattern v = true).
    { unfold validate_duration. destruct (re_match duration_pattern v); simpl.
      - split; eauto.
      - split; [by intros [? ?] | done]. }
    rewrite Hok, re_match_duration_pattern. split.
    + intros (w & rest & -> & Hw & Hrest).
      apply lang_duration_format in Hw as (ds & ws & u & -> & ?).
      exists ds, ws, u, rest. rewrite <- !app_assoc. tauto.
    + intros (ds & ws & u & tail & -> & H1 & H2 & H3 & H4 & H5 & H6).
      exists (ds ++ ws ++ u), tail. rewrite <- !app_assoc.
      split; [done|]. split; [|done].
      apply lang_duration_format. exists ds, ws, u. auto 10.
Qed.

(** ** Clause refinement *)

Lemma LEGAL_PROMPTS_keys (t : str) :
  is_Some (LEGAL_PROMPTS !! t) <-> t ∈ contract_types.
Proof.
  split.
  - intros Hs. destruct (decide (t ∈ contract_types)) as [|Hn]; [done|].
    unfold LEGAL_PROMPTS in Hs. rewrite dict_lookup_None in Hs.
    + by destruct Hs.
    + exact Hn.
  - intros Ht%contract_types_cases.
    destruct Ht as [->|[->|[->|[->|[->|[->|[->|[->| ->]]]]]]]];
      by vm_compute; eexists.
Qed.

(** X4: the prompt configurations cover exactly the nine contract types:
    building the refinement prompt succeeds for each of them and raises
    [KeyError] for every other type. *)
Theorem refinement_prompt_defined (clause t : str) :
  (is_Some (LEGAL_PROMPTS !! t) <-> t ∈ contract_types) /\
  ((exists prompt, refinement_prompt clause t = Ok prompt) <-> t ∈ contract_types) /\
  (refinement_prompt clause t = Raise (KeyError t) <-> t ∉ contract_types).
Proof.
  split; [apply LEGAL_PROMPTS_keys|].
  rewrite <- LEGAL_PROMPTS_keys. unfold refinement_prompt.
  destruct (LEGAL_PROMPTS !! t) as [cfg|]; split.
  - split; [by eexists | eauto].
  - split; [done | intros []; by eexists].
  - split; [by intros [? ?] | by intros [? ?]].
  - split; [by intros _ [? ?] | done].
Qed.

Lemma substring_of_concat_map {A : Type} (f : A -> str) (x : A) (l : list A) :
  x ∈ l -> substring_of (f x) (concat (map f l)).
Proof.
  induction 1 as [x l|x y l Hx IH]; simpl.
  - apply substring_of_here.
  - by apply substring_of_app_r.
Qed.

Lemma substring_of_app_l (p s x : str) :
  substring_of p s -> substring_of p (s ++ x).
Proof.
  intros (l & r & ->). exists l, (r ++ x). by rewrite <- !app_assoc.
Qed.

(** X5: the refinement prompt opens with the instruction that names the
    contract type, ends with "Refined Clause:", and holds the original
    clause, the legal framework of the type, every required element after a
    check mark and every example after a bullet. *)
Theorem refinement_prompt_contents (clause t prompt : str) :
  refinement_prompt clause t = Ok prompt ->
  exists cfg,
    LEGAL_PROMPTS !! t = Some cfg /\
    starts_with
      (py "As a Supreme Court of India registered contract lawyer, refine this "
       ++ t ++ py " clause:\n")
      prompt = true /\
    substring_of (py "\n**Original Clause**: " ++ clause ++ py "\n") prompt /\
    substring_of (py "\n**Legal Framework**: " ++ context cfg ++ py "\n") prompt /\
    (forall req, req ∈ requirements cfg ->
                 substring_of ([CHECK] ++ py " " ++ req) prompt) /\
    (forall ex, ex ∈ examples cfg ->
                substring_of ([BULLET] ++ py " " ++ ex) prompt) /\
    exists body, prompt = body ++ py "\n\nRefined Clause:".
Proof.
  unfold refinement_prompt. destruct (LEGAL_PROMPTS !! t) as [cfg|]; [|done].
  intros H.
  apply (f_equal (fun r => match r with Ok p => p | Raise _ => [] end)) in H.
  cbv beta iota in H. subst prompt. exists cfg. split; [done|].
  change (py " clause:\n\n**Original Clause**: ")
    with (py " clause:\n" ++ py "\n**Original Clause**: ").
  change (py "\n\n**Legal Framework**: ")
    with (py "\n" ++ py "\n**Legal Framework**: ").
  change (py "\n\n**Must Include**:\n")
    with (py "\n" ++ py "\n**Must Include**:\n").
  change (py " for obligations\n2. Reference specific Indian statutes\n3. Include enforcement mechanism\n4. Maximum 3 sentences\n5. Use Rs. for penalties\n\nRefined Clause:")
    with (py " for obligations\n2. Reference specific Indian statutes\n3. Include enforcement mechanism\n4. Maximum 3 sentences\n5. Use Rs. for penalties" ++ py "\n\nRefined Clause:").
  split; [|split; [|split; [|split; [|split]]]].
  - apply starts_with_true. eexists. rewrite <- !app_assoc. reflexivity.
  - exists (py "As a Supreme Court of India registered contract lawyer, refine this "
            ++ t ++ py " clause:\n").
    eexists. rewrite <- !app_assoc. reflexivity.
  - exists (py "As a Supreme Court of India registered contract lawyer, refine this "
            ++ t ++ py " clause:\n" ++ py "\n**Original Clause**: " ++ clause
            ++ py "\n").
    eexists. rewrite <- !app_assoc. reflexivity.
  - intros req Hreq. rewrite <- !app_assoc.
    do 10 apply substring_of_app_r. apply substring_of_app_l.
    by apply (substring_of_concat_map (fun req => [CHECK] ++ py " " ++ req)).
  - intros ex Hex. rewrite <- !app_assoc.
    do 12 apply substring_of_app_r. apply substring_of_app_l.
    by apply (substring_of_concat_map (fun ex => [BULLET] ++ py " " ++ ex)).
  - eexists. rewrite !app_assoc. reflexivity.
Qed.

Lemma refinement_prompt_contents_witness :
  refinement_prompt clause_A (py "nda") = Ok prompt_A /\
  substring_of (py "\n**Original Clause**: " ++ clause_A ++ py "\n") prompt_A /\
  substring_of ([CHECK] ++ py " Explicitly exclude publicly available information")
    prompt_A.
Proof.
  assert (H : refinement_prompt clause_A (py "nda") = Ok prompt_A)
    by (vm_compute; reflexivity).
  split; [exact H|].
  destruct (refinement_prompt_contents _ _ _ H)
    as (cfg & Hcfg & _ & Hclause & _ & Hreq & _).
  split; [exact Hclause|]. apply Hreq.
  assert (py "Explicitly exclude publicly available information"
          ∈ requirements cfg) as Hin.
  { vm_compute in Hcfg. injection Hcfg as <-.
    do 3 apply list_elem_of_further. apply list_elem_of_here. }
  exact Hin.
Defined.

(** *** Stripping of white space *)

Lemma lstrip_spec (s : str) :
  exists l, s = l ++ lstrip s /\ Forall (fun c => is_space c = true) l /\
            (forall c, head (lstrip s) = Some c -> is_space c = false).
Proof.
  induction s as [|c s (l & Hs & Hl & Hh)]; simpl.
  - exists []. by repeat split.
  - destruct (is_space c) eqn:Hc.
    + exists (c :: l). simpl. rewrite <- Hs. repeat split; [by constructor|done].
    + exists []. repeat split; [done|]. by intros ? [= <-].
Qed.

Lemma rstrip_spec (s : str) :
  exists r, s = rstrip s ++ r /\ Forall (fun c => is_space c = true) r /\
            (forall c, last (rstrip s) = Some c -> is_space c = false).
Proof.
  unfold rstrip. destruct (lstrip_spec (reverse s)) as (l & Hs & Hl & Hh).
  exists (reverse l). split; [|split].
  - rewrite <- reverse_app, <- Hs. by rewrite reverse_involutive.
  - by apply Forall_reverse.
  - intros c. rewrite last_reverse. apply Hh.
Qed.

Lemma strip_spec (s : str) :
  exists l r, s = l ++ strip s ++ r /\
              Forall (fun c => is_space c = true) l /\
              Forall (fun c => is_space c = true) r /\
              trimmed (strip s).
Proof.
  unfold strip. destruct (rstrip_spec s) as (r & Hs & Hr & Hlast).
  destruct (lstrip_spec (rstrip s)) as (l & Hrs & Hl & Hhead).
  exists l, r. split; [|split; [done|split; [done|split; [done|]]]].
  - rewrite app_assoc, <- Hrs. exact Hs.
  - intros c Hc. apply Hlast. rewrite Hrs.
    destruct (lstrip (rstrip s)) as [|x t] eqn:E; [done|].
    by rewrite last_app, Hc.
Qed.

Lemma refine_clause_unfold (w : World) (clause t : str) (fs : files) :
  refine_clause_with_legal_expertise w clause t fs =
  (match refinement_prompt clause t with
   | Raise e => Raise e
   | Ok prompt =>
       match completions_create w (request_for prompt) with
       | Raise e => Raise e
       | Ok [] => Raise IndexError
       | Ok (None :: _) => Raise (AttributeError JNull (py "strip"))
       | Ok (Some text :: _) => Ok (strip text)
       end
   end, fs).
Proof.
  unfold refine_clause_with_legal_expertise, mbind, M_bind, lift, raise, mret,
    M_ret, request_for.
  destruct (refinement_prompt clause t) as [prompt|e]; [|done].
  by destruct (completions_create w _) as [[|[text|] choices]|e].
Qed.

(** X6: when the refinement returns, the contract type is one of the nine,
    the service was asked once, with the prompt of the clause as the only
    message, and the result is the content of its first choice without the
    white space around it: the content is white space, the result, white
    space, and the result neither starts nor ends with white space.  No
    file is touched. *)
Theorem refine_clause_result (w : World) (clause t : str) (fs fs' : files)
    (refined : str) :
  refine_clause_with_legal_expertise w clause t fs = (Ok refined, fs') ->
  fs' = fs /\ t ∈ contract_types /\
  exists prompt text others l r,
    refinement_prompt clause t = Ok prompt /\
    completions_create w (request_for prompt) = Ok (Some text :: others) /\
    text = l ++ refined ++ r /\
    Forall (fun c => is_space c = true) l /\
    Forall (fun c => is_space c = true) r /\
    trimmed refined.
Proof.
  rewrite refine_clause_unfold.
  destruct (refinement_prompt clause t) as [prompt|e] eqn:Hp; [|by intros [=]].
  destruct (completions_create w (request_for prompt))
    as [[|[text|] others]|e] eqn:Hc; intros H; try by inversion H.
  assert (fs' = fs /\ strip text = refined) as [-> <-] by (by inversion H).
  split; [done|]. split.
  - apply LEGAL_PROMPTS_keys. unfold refinement_prompt in Hp.
    by destruct (LEGAL_PROMPTS !! t).
  - destruct (strip_spec text) as (l & r & Htext & Hl & Hr & Ht).
    exists prompt, text, others, l, r. auto 10.
Qed.

Lemma refine_clause_result_witness :
  refine_clause_with_legal_expertise (stub_world (Ok reply_A)) clause_A (py "nda") ∅
    = (Ok refined_A, ∅) /\
  trimmed refined_A /\
  py "nda" ∈ contract_types.
Proof.
  assert (H : refine_clause_with_legal_expertise (stub_world (Ok reply_A))
                clause_A (py "nda") ∅ = (Ok refined_A, ∅))
    by (vm_compute; reflexivity).
  split; [exact H|].
  destruct (refine_clause_result _ _ _ _ _ _ H)
    as (_ & Ht & _ & _ & _ & _ & _ & _ & _ & _ & _ & _ & Htrim).
  split; [exact Htrim | exact Ht].
Defined.

(** X7: the refinement raises in four ways only, and leaves the files as
    they are: [KeyError] for a contract type outside the nine, before the
    service is asked; whatever the service call raises; [IndexError] when
    the service returns no choice; [AttributeError] when the content of the
    first choice is [None]. *)
Theorem refine_clause_raises (w : World) (clause t : str) (fs fs' : files)
    (e : exn) :
  refine_clause_with_legal_expertise w clause t fs = (Raise e, fs') <->
  fs' = fs /\
  (((t ∉ contract_types) /\ e = KeyError t) \/
   exists prompt,
     refinement_prompt clause t = Ok prompt /\
     (completions_create w (request_for prompt) = Raise e \/
      (completions_create w (request_for prompt) = Ok [] /\ e = IndexError) \/
      (exists others,
         completions_create w (request_for prompt) = Ok (None :: others) /\
         e = AttributeError JNull (py "strip")))).
Proof.
  rewrite refine_clause_unfold.
  destruct (refinement_prompt clause t) as [prompt|e0] eqn:Hp.
  - assert (Ht : t ∈ contract_types).
    { apply LEGAL_PROMPTS_keys. unfold refinement_prompt in Hp.
      by destruct (LEGAL_PROMPTS !! t). }
    split.
    + intros H. assert (fs' = fs) as -> by (by inversion H). split; [done|].
      right. exists prompt. split; [done|].
      destruct (completions_create w (request_for prompt))
        as [[|[text|] others]|e1]; inversion H; eauto.
    + intros (-> & [[? _] | (p & Hp' & H)]); [done|].
      injection Hp' as <-.
      destruct H as [H | [[H ->] | (others & H & ->)]]; by rewrite H.
  - assert ((t ∉ contract_types) /\ e0 = KeyError t) as [Ht ->].
    { unfold refinement_prompt in Hp. rewrite <- LEGAL_PROMPTS_keys.
      destruct (LEGAL_PROMPTS !! t); [done|]. split; [by intros [? ?]|].
      by inversion Hp. }
    split.
    + intros [= <- <-]. auto.
    + intros (-> & [[_ ->] | (p & [=] & _)]). done.
Qed.

(** ** The rendered document *)

Lemma normalize_nil : normalize [] = [].
Proof. reflexivity. Qed.

Lemma normalize_cons (c : N) (s : str) :
  normalize (c :: s) = plain_equivalent c ++ normalize s.
Proof.
  unfold normalize. rewrite !replace_char, !flat_map_flat_map.
  change (flat_map ?f (c :: s)) with (f c ++ flat_map f s). f_equal.
  unfold plain_equivalent.
  destruct (c =? RSQUO) eqn:H1; [reflexivity|].
  destruct (c =? LDQUO) eqn:H2, (c =? RDQUO) eqn:H3, (c =? RUPEE) eqn:H4;
    repeat (progress (simpl; rewrite ?H2, ?H3, ?H4)); reflexivity.
Qed.

Lemma normalize_app (s1 s2 : str) :
  normalize (s1 ++ s2) = normalize s1 ++ normalize s2.
Proof.
  induction s1 as [|c s1 IH]; [done|].
  simpl app. by rewrite !normalize_cons, IH, app_assoc.
Qed.

Lemma plain_equivalent_cases (c : N) :
  (c ∈ typographic /\
   Forall (fun x => (x ∉ typographic) /\ x <> LF) (plain_equivalent c)) \/
  ((c ∉ typographic) /\ plain_equivalent c = [c]).
Proof.
  unfold plain_equivalent, typographic.
  destruct (N.eqb_spec c RSQUO) as [->|?].
  { left. split; [set_solver|]. apply (bool_decide_unpack _). by vm_compute. }
  destruct (N.eqb_spec c LDQUO) as [->|?].
  { left. split; [set_solver|]. apply (bool_decide_unpack _). by vm_compute. }
  destruct (N.eqb_spec c RDQUO) as [->|?].
  { left. split; [set_solver|]. apply (bool_decide_unpack _). by vm_compute. }
  destruct (N.eqb_spec c RUPEE) as [->|?].
  { left. split; [set_solver|]. apply (bool_decide_unpack _). by vm_compute. }
  right. split; [|done].
  intros H. repeat (apply elem_of_cons in H as [->|H]; [done|]).
  by apply elem_of_nil in H.
Qed.

(** X8: no character of a normalized text is a right single quotation
    mark, a left or right double quotation mark or a rupee sign; a text
    without these characters, and only such a text, is left as it is; and
    normalizing twice is the same as normalizing once. *)
Theorem normalize_removes_typographic (content : str) :
  (forall c, c ∈ normalize content -> c ∉ typographic) /\
  (normalize content = content <-> forall c, c ∈ content -> c ∉ typographic) /\
  normalize (normalize content) = normalize content.
Proof.
  assert (Hclean : forall s c, c ∈ normalize s -> c ∉ typographic).
  { induction s as [|x s IH]; intros c.
    - rewrite normalize_nil. by intros ?%elem_of_nil.
    - rewrite normalize_cons, elem_of_app. intros [Hc | Hc]; [|by apply IH].
      destruct (plain_equivalent_cases x) as [[_ Hall] | [Hx Heq]].
      + rewrite Forall_forall in Hall. by apply Hall.
      + rewrite Heq in Hc. by apply list_elem_of_singleton in Hc as ->. }
  assert (Hfix : forall s, (forall c, c ∈ s -> c ∉ typographic) -> normalize s = s).
  { induction s as [|x s IH]; intros Hs; [done|].
    rewrite normalize_cons. rewrite IH by (intros c Hc; apply Hs; by right).
    destruct (plain_equivalent_cases x) as [[Hx _] | [_ ->]]; [|done].
    destruct (Hs x); [by left | done]. }
  split; [apply Hclean|]. split; [split|].
  - intros Heq c Hc. apply (Hclean content). by rewrite Heq.
  - apply Hfix.
  - apply Hfix, Hclean.
Qed.

(** *** Lines *)

Lemma split_nonempty (s : str) (sep : N) : split s sep <> [].
Proof.
  destruct s as [|c s]; simpl; [done|].
  destruct (c =? sep); [done|]. by destruct (split s sep).
Qed.

Lemma join_split (s : str) (sep : N) : join sep (split s sep) = s.
Proof.
  induction s as [|c s IH]; simpl; [done|].
  pose proof (split_nonempty s sep) as Hne.
  destruct (N.eqb_spec c sep) as [->|Hc].
  - destruct (split s sep) as [|l ls]; [done|]. simpl in *. by rewrite IH.
  - destruct (split s sep) as [|l ls]; [done|].
    destruct ls as [|l' ls]; simpl in *; by rewrite <- IH.
Qed.

Lemma length_split (s : str) (sep : N) :
  length (split s sep) = S (count sep s).
Proof.
  induction s as [|c s IH]; simpl; [done|].
  pose proof (split_nonempty s sep) as Hne.
  destruct (c =? sep); simpl.
  - by rewrite IH.
  - destruct (split s sep) as [|l ls]; [done|]. simpl in *. exact IH.
Qed.

Lemma split_lines_no_sep (s : str) (sep : N) (line : str) :
  line ∈ split s sep -> sep ∉ line.
Proof.
  revert line. induction s as [|c s IH]; simpl; intros line.
  - intros ->%list_elem_of_singleton. by intros ?%elem_of_nil.
  - pose proof (split_nonempty s sep) as Hne.
    destruct (N.eqb_spec c sep) as [->|Hc].
    + intros [-> | Hl]%elem_of_cons; [by intros ?%elem_of_nil | by apply IH].
    + destruct (split s sep) as [|l ls]; [done|].
      intros [-> | Hl]%elem_of_cons.
      * apply not_elem_of_cons. split; [done|]. apply IH. by left.
      * apply IH. by right.
Qed.

Lemma split_app_no_sep (w s : str) (sep : N) :
  sep ∉ w ->
  split (w ++ s) sep =
  match split s sep with
  | l :: ls => (w ++ l) :: ls
  | [] => [w]
  end.
Proof.
  induction w as [|c w IH]; simpl; intros Hw.
  - pose proof (split_nonempty s sep). by destruct (split s sep).
  - apply not_elem_of_cons in Hw as [Hc Hw].
    destruct (N.eqb_spec c sep) as [->|_]; [done|].
    rewrite IH by done. by destruct (split s sep).
Qed.

Lemma split_normalize (content : str) :
  split (normalize content) LF = map normalize (split content LF).
Proof.
  induction content as [|c s IH]; [done|].
  rewrite normalize_cons. simpl split.
  pose proof (split_nonempty s LF) as Hne.
  destruct (N.eqb_spec c LF) as [->|Hc].
  - change (plain_equivalent LF) with [LF]. simpl. by rewrite ?N.eqb_refl, IH.
  - assert (LF ∉ plain_equivalent c) as Hw.
    { destruct (plain_equivalent_cases c) as [[_ Hall] | [_ ->]].
      - rewrite Forall_forall in Hall. intros H. by destruct (Hall _ H).
      - intros H%list_elem_of_singleton. by apply Hc. }
    rewrite split_app_no_sep, IH by done.
    destruct (split s LF) as [|l ls]; [done|].
    simpl. by rewrite normalize_cons.
Qed.

Lemma paragraphs_pdf_document (content : str) :
  paragraphs (pdf_document content) = split (normalize content) LF.
Proof.
  unfold pdf_document, paragraphs. cbv zeta. rewrite flat_map_app.
  simpl flat_map at 1. simpl app.
  induction (split (normalize content) LF) as [|l ls IH]; [done|].
  simpl. by rewrite IH.
Qed.

Lemma length_paragraphs (content : str) :
  length (paragraphs (pdf_document content)) = S (count LF content).
Proof.
  by rewrite paragraphs_pdf_document, split_normalize, length_map, length_split.
Qed.

(** X9: the rendered document lays out one paragraph per line of the
    text, each the normalization of that line and none holding a line feed;
    joined by line feeds the paragraphs give the normalized text back, and
    there is one paragraph more than the text has line feeds. *)
Theorem pdf_document_paragraphs (content : str) :
  paragraphs (pdf_document content) = map normalize (split content LF) /\
  join LF (paragraphs (pdf_document content)) = normalize content /\
  length (paragraphs (pdf_document content)) = S (count LF content) /\
  (forall p, p ∈ paragraphs (pdf_document content) -> LF ∉ p).
Proof.
  split; [by rewrite paragraphs_pdf_document, split_normalize|].
  split; [by rewrite paragraphs_pdf_document, join_split|].
  split; [apply length_paragraphs|].
  intros p. rewrite paragraphs_pdf_document. apply split_lines_no_sep.
Qed.

(** ** Files and replies *)

Lemma handle_reply_files (w : World) (text : str) (upload_res : http_response)
    (fs : files) :
  snd (handle_reply w text upload_res fs) = fs.
Proof.
  unfold handle_reply, mbind, M_bind, lift, raise, mret, M_ret.
  destruct (negb _); [done|].
  destruct (json_result upload_res) as [j|e]; [|done].
  destruct (get j (py "status")) as [st|e]; [|done].
  destruct (negb _); [done|].
  destruct (getitem j (py "data")) as [d|e]; [|done].
  by destruct (getitem d (py "downloadPage")).
Qed.

Lemma generate_contract_snd (w : World) (data : ContractRequest) (fs : files) :
  snd (generate_contract w data fs) = snd (generate_contract_try w data fs).
Proof.
  unfold generate_contract. by destruct (generate_contract_try w data fs) as [[?|?] ?].
Qed.

(** Where each raising step leaves the files. *)
Lemma step_raises_files (w : World) (data : ContractRequest) (fs : files) (e : exn) :
  step_raises w data fs e ->
  snd (generate_contract_try w data fs) = fs \/
  exists refined,
    snd (generate_contract_try w data fs) =
    <[pdf_name w := pdf_document (get_legal_template data refined)]> fs.
Proof.
  destruct 1 as [raw e fs' Hraw Href
                |raw refined e Hraw Href Hpdf
                |raw refined e Hraw Href Hpdf Hopen
                |raw refined e Hraw Href Hpdf Hopen Hpost
                |refined upload_res e fs' Hreach Hreply].
  - left. pose proof (refine_clause_files _ _ _ _ _ _ Href) as ->.
    unfold generate_contract_try.
    rewrite (bind_Ok _ _ fs fs raw) by (rewrite lift_eq, Hraw; reflexivity).
    by rewrite (bind_Raise _ _ fs fs e).
  - left. unfold generate_contract_try.
    rewrite (bind_Ok _ _ fs fs raw) by (rewrite lift_eq, Hraw; reflexivity).
    rewrite (bind_Ok _ _ fs fs refined) by exact Href.
    cbv zeta. fold (pdf_name w).
    rewrite (bind_Raise _ _ fs fs e); [done|].
    unfold save_as_pdf. by rewrite Hpdf.
  - right. exists refined. unfold generate_contract_try.
    rewrite (bind_Ok _ _ fs fs raw) by (rewrite lift_eq, Hraw; reflexivity).
    rewrite (bind_Ok _ _ fs fs refined) by exact Href.
    cbv zeta. fold (pdf_name w).
    rewrite (bind_Ok _ _ fs
               (<[pdf_name w := pdf_document (get_legal_template data refined)]> fs) tt)
      by (unfold save_as_pdf; rewrite Hpdf; reflexivity).
    rewrite (bind_Raise _ _ _
               (<[pdf_name w := pdf_document (get_legal_template data refined)]> fs) e);
      [done|].
    unfold open_rb. by rewrite lookup_insert_eq, Hopen.
  - right. exists refined. unfold generate_contract_try.
    rewrite (bind_Ok _ _ fs fs raw) by (rewrite lift_eq, Hraw; reflexivity).
    rewrite (bind_Ok _ _ fs fs refined) by exact Href.
    cbv zeta. fold (pdf_name w).
    rewrite (bind_Ok _ _ fs
               (<[pdf_name w := pdf_document (get_legal_template data refined)]> fs) tt)
      by (unfold save_as_pdf; rewrite Hpdf; reflexivity).
    rewrite (bind_Ok _ _ _ _ (pdf_document (get_legal_template data refined)))
      by (unfold open_rb; rewrite lookup_insert_eq, Hopen; reflexivity).
    rewrite (bind_Raise _ _ _
               (<[pdf_name w := pdf_document (get_legal_template data refined)]> fs) e);
      [done|].
    by rewrite lift_eq, Hpost.
  - right. exists refined.
    rewrite (generate_contract_try_reply _ _ _ _ _ Hreach).
    apply handle_reply_files.
Qed.

(** X10: a request writes at most one file, the one named by the fresh
    identifier with the suffix .pdf: afterwards the files are as before, or
    as before with the rendered document stored under that name, replacing
    what was there; every file of another name is as it was. *)
Theorem generate_contract_writes_one_file
    (w : World) (data : ContractRequest) (fs : files) :
  (snd (generate_contract w data fs) = fs \/
   exists refined,
     snd (generate_contract w data fs) =
     <[pdf_name w := pdf_document (get_legal_template data refined)]> fs) /\
  (forall name : str,
     name <> pdf_name w ->
     snd (generate_contract w data fs) !! name = fs !! name).
Proof.
  assert (H : snd (generate_contract w data fs) = fs \/
              exists refined,
                snd (generate_contract w data fs) =
                <[pdf_name w := pdf_document (get_legal_template data refined)]> fs).
  { rewrite generate_contract_snd.
    destruct (reaches_upload_or_raises w data fs)
      as [(refined & upload_res & Hreach) | (e & He)].
    - right. exists refined.
      rewrite (generate_contract_try_reply _ _ _ _ _ Hreach).
      apply handle_reply_files.
    - by eapply step_raises_files. }
  split; [exact H|].
  intros name Hname. destruct H as [-> | [refined ->]]; [done|].
  by apply lookup_insert_ne.
Qed.

(** X11: once the upload request is answered the rendered file stays in
    place whatever the reply is, also when the request then fails: nothing
    removes it. *)
Theorem rendered_file_is_kept (w : World) (data : ContractRequest) (fs : files)
    (refined : str) (upload_res : http_response) :
  reaches_upload w data fs refined upload_res ->
  snd (generate_contract w data fs) !! pdf_name w =
  Some (pdf_document (get_legal_template data refined)).
Proof.
  intros Hreach. rewrite generate_contract_snd.
  rewrite (generate_contract_try_reply _ _ _ _ _ Hreach), handle_reply_files.
  apply lookup_insert_eq.
Qed.

Lemma rendered_file_is_kept_witness :
  reaches_upload (stub_world (Ok reply_B)) request_A ∅ refined_A reply_B /\
  failed (fst (generate_contract (stub_world (Ok reply_B)) request_A ∅)) /\
  snd (generate_contract (stub_world (Ok reply_B)) request_A ∅)
    !! pdf_name (stub_world (Ok reply_B))
  = Some (pdf_document (get_legal_template request_A refined_A)).
Proof.
  pose proof (reaches_upload_stub reply_B) as Hreach.
  split; [exact Hreach|]. split.
  - rewrite scenario_B_response. by eexists _, _.
  - exact (rendered_file_is_kept _ _ _ _ _ Hreach).
Defined.

Lemma generate_contract_try_unknown_type
    (w : World) (data : ContractRequest) (fs : files) :
  contract_type data ∉ contract_types ->
  generate_contract_try w data fs = (Raise (KeyError (contract_type data)), fs).
Proof.
  intros Ht.
  destruct (retrieve_clause_Ok (clause_query data) (contract_type data))
    as (raw & _ & _ & Hraw).
  assert (Hp : refinement_prompt raw (contract_type data)
               = Raise (KeyError (contract_type data))).
  { unfold refinement_prompt.
    destruct (LEGAL_PROMPTS !! contract_type data) eqn:E; [|done].
    destruct Ht. apply LEGAL_PROMPTS_keys. by eexists. }
  unfold generate_contract_try.
  rewrite (bind_Ok _ _ fs fs raw) by (rewrite lift_eq, Hraw; reflexivity).
  apply bind_Raise. by rewrite refine_clause_unfold, Hp.
Qed.

(** X12: for a contract type outside the nine the request fails while
    the prompt is built, with the [KeyError] of the type as the cause: the
    service is not asked, no file is written, and the sentinel text of the
    template generator is not produced. *)
Theorem unknown_type_fails_in_refinement
    (w : World) (data : ContractRequest) (fs : files) :
  contract_type data ∉ contract_types ->
  generate_contract w data fs =
  (HTTPException 400
     (py "Contract generation failed: "
      ++ builtin_text w (KeyError (contract_type data))), fs).
Proof.
  intros Ht. unfold generate_contract.
  by rewrite (generate_contract_try_unknown_type w data fs Ht).
Qed.

Lemma unknown_type_fails_in_refinement_witness :
  (contract_type request_unknown ∉ contract_types) /\
  generate_contract (stub_world (Ok reply_A)) request_unknown ∅ =
  (HTTPException 400 (py "Contract generation failed: 'will'"), ∅).
Proof.
  assert (H : contract_type request_unknown ∉ contract_types)
    by (apply (bool_decide_unpack _); by vm_compute).
  split; [exact H|].
  exact (unknown_type_fails_in_refinement (stub_world (Ok reply_A)) _ ∅ H).
Defined.

(** X13: a successful response never carries the sentinel text of the
    template generator: the contract type of a request that succeeds is one
    of the nine, whether or not the request was validated. *)
Theorem sentinel_is_never_returned (w : World) (data : ContractRequest)
    (fs fs' : files) (body : gmap str json) :
  generate_contract w data fs = (Return body, fs') ->
  contract_type data ∈ contract_types /\
  body !! py "contract" <> Some (JStr (py "Invalid contract type.")).
Proof.
  intros H.
  assert (Ht : contract_type data ∈ contract_types).
  { destruct (decide (contract_type data ∈ contract_types)) as [|Hn]; [done|].
    apply generate_contract_Return in H.
    by rewrite (generate_contract_try_unknown_type w data fs Hn) in H. }
  split; [exact Ht|].
  apply generate_contract_Return, generate_contract_try_Ok in H
    as (refined & upload_res & Hreach & Hh).
  apply handle_reply_Ok in Hh as (_ & _ & url & _ & -> & _).
  destruct (success_body_lookup (get_legal_template data refined) url)
    as (_ & -> & _).
  intros [= Heq]. by apply (get_legal_template_known data refined).
Qed.

Lemma sentinel_is_never_returned_witness :
  generate_contract (stub_world (Ok reply_A)) request_A ∅ =
    (Return (success_body (get_legal_template request_A refined_A)
               (JStr (py "https://example/x"))),
     {[ pdf_name (stub_world (Ok reply_A)) :=
          pdf_document (get_legal_template request_A refined_A) ]}) /\
  contract_type request_A ∈ contract_types /\
  success_body (get_legal_template request_A refined_A)
    (JStr (py "https://example/x")) !! py "contract"
  <> Some (JStr (py "Invalid contract type.")).
Proof.
  assert (H : generate_contract (stub_world (Ok reply_A)) request_A ∅ =
    (Return (success_body (get_legal_template request_A refined_A)
               (JStr (py "https://example/x"))),
     {[ pdf_name (stub_world (Ok reply_A)) :=
          pdf_document (get_legal_template request_A refined_A) ]}))
    by (vm_compute; reflexivity).
  split; [exact H|].
  exact (sentinel_is_never_returned _ _ _ _ _ H).
Defined.

Lemma handle_reply_Raise (w : World) (text : str) (upload_res : http_response)
    (fs : files) :
  status_code upload_res = 200%Z ->
  fst (handle_reply w text upload_res fs) =
  match json_result upload_res with
  | Raise e => Raise e
  | Ok j =>
      match get j (py "status") with
      | Raise e => Raise e
      | Ok status =>
          if json_eq_str status (py "ok") then
            match getitem j (py "data") with
            | Raise e => Raise e
            | Ok d =>
                match getitem d (py "downloadPage") with
                | Raise e => Raise e
                | Ok url => Ok (success_body text url)
                end
            end
          else Raise (Exception (py "Gofile error: " ++ format_json w j))
      end
  end.
Proof.
  intros Hs. unfold handle_reply, mbind, M_bind, lift, raise, mret, M_ret.
  rewrite Hs. change (negb (200 =? 200)%Z) with false. cbv iota.
  destruct (json_result upload_res) as [j|e]; [|done].
  destruct (get j (py "status")) as [st|e]; [|done].
  destruct (json_eq_str st (py "ok")); [|done]. cbv beta iota delta [negb].
  destruct (getitem j (py "data")) as [d|e]; [|done].
  by destruct (getitem d (py "downloadPage")).
Qed.

Lemma generate_contract_fst_reply (w : World) (data : ContractRequest)
    (fs : files) (refined : str) (upload_res : http_response) (e : exn) :
  reaches_upload w data fs refined upload_res ->
  fst (handle_reply w (get_legal_template data refined) upload_res
         (<[pdf_name w := pdf_document (get_legal_template data refined)]> fs))
  = Raise e ->
  fst (generate_contract w data fs) =
  HTTPException 400 (py "Contract generation failed: " ++ exn_str w e).
Proof.
  intros Hreach Hh. rewrite (generate_contract_reply _ _ _ _ _ Hreach).
  destruct (handle_reply _ _ _ _) as [[body|e'] fs']; simpl in Hh; [done|].
  by injection Hh as ->.
Qed.

(** X14: with HTTP 200 the causes of failure in the reply are, in the
    order in which the code meets them: a body that is not JSON (the error
    of the decoder), a body that is not an object ([AttributeError]), a
    status field that is absent or not "ok" ("Gofile error: " followed by
    the body, whatever else the body holds), a missing data field
    ([KeyError]), a data field that is not an object ([TypeError]), and a
    missing downloadPage field ([KeyError]). *)
Theorem reply_failure_causes (w : World) (data : ContractRequest) (fs : files)
    (refined : str) (upload_res : http_response) :
  reaches_upload w data fs refined upload_res ->
  status_code upload_res = 200%Z ->
  let failure e :=
    fst (generate_contract w data fs) =
    HTTPException 400 (py "Contract generation failed: " ++ exn_str w e) in
  (forall e, json_result upload_res = Raise e -> failure e) /\
  (forall j, json_result upload_res = Ok j ->
     (forall m, j <> JObj m) ->
     failure (AttributeError j (py "get"))) /\
  (forall m, json_result upload_res = Ok (JObj m) ->
     m !! py "status" <> Some (JStr (py "ok")) ->
     failure (Exception (py "Gofile error: " ++ format_json w (JObj m)))) /\
  (forall m, json_result upload_res = Ok (JObj m) ->
     m !! py "status" = Some (JStr (py "ok")) ->
     (m !! py "data" = None -> failure (KeyError (py "data"))) /\
     (forall d, m !! py "data" = Some d -> (forall dm, d <> JObj dm) ->
                failure (TypeError d)) /\
     (forall dm, m !! py "data" = Some (JObj dm) ->
                 dm !! py "downloadPage" = None ->
                 failure (KeyError (py "downloadPage")))).
Proof.
  intros Hreach Hs failure. subst failure. cbv beta.
  pose proof (handle_reply_Raise w (get_legal_template data refined) upload_res
                (<[pdf_name w := pdf_document (get_legal_template data refined)]> fs)
                Hs) as Hh.
  split; [|split; [|split]].
  - intros e He. apply (generate_contract_fst_reply _ _ _ _ _ _ Hreach).
    by rewrite Hh, He.
  - intros j Hj Hobj. apply (generate_contract_fst_reply _ _ _ _ _ _ Hreach).
    rewrite Hh, Hj. destruct j; try done. by destruct (Hobj m).
  - intros m Hj Hst. apply (generate_contract_fst_reply _ _ _ _ _ _ Hreach).
    rewrite Hh, Hj. unfold get.
    destruct (json_eq_str (default JNull (m !! py "status")) (py "ok")) eqn:Hok;
      [|done].
    apply json_eq_str_true in Hok. destruct (m !! py "status"); [|done].
    simpl in Hok. by subst.
  - intros m Hj Hst.
    assert (Hok : fst (handle_reply w (get_legal_template data refined) upload_res
                    (<[pdf_name w := pdf_document (get_legal_template data refined)]> fs))
                  = match getitem (JObj m) (py "data") with
                    | Raise e => Raise e
                    | Ok d =>
                        match getitem d (py "downloadPage") with
                        | Raise e => Raise e
                        | Ok url => Ok (success_body (get_legal_template data refined) url)
                        end
                    end).
    { rewrite Hh, Hj. unfold get at 1. rewrite Hst.
      cbv beta iota delta [from_option id].
      by rewrite (proj2 (json_eq_str_true _ _) eq_refl). }
    split; [|split].
    + intros Hd. apply (generate_contract_fst_reply _ _ _ _ _ _ Hreach).
      rewrite Hok. unfold getitem. by rewrite Hd.
    + intros d Hd Hobj. apply (generate_contract_fst_reply _ _ _ _ _ _ Hreach).
      rewrite Hok. unfold getitem at 1. rewrite Hd.
      destruct d; try done. by destruct (Hobj m0).
    + intros dm Hd Hu. apply (generate_contract_fst_reply _ _ _ _ _ _ Hreach).
      rewrite Hok. unfold getitem. by rewrite Hd, Hu.
Qed.

Lemma reply_failure_causes_witness :
  reaches_upload (stub_world (Ok reply_error)) request_A ∅ refined_A reply_error /\
  status_code reply_error = 200%Z /\
  fst (generate_contract (stub_world (Ok reply_error)) request_A ∅) =
  HTTPException 400 (py "Contract generation failed: Gofile error: {...}").
Proof.
  pose proof (reaches_upload_stub reply_error) as Hreach.
  split; [exact Hreach|]. split; [reflexivity|].
  destruct (reply_failure_causes _ _ _ _ _ Hreach eq_refl) as (_ & _ & Hst & _).
  exact (Hst _ eq_refl ltac:(by vm_compute)).
Defined.

(** ** What a request is read for *)

Lemma get_legal_template_ext (data data' : ContractRequest) (clause : str) :
  same_template_inputs data data' ->
  get_legal_template data clause = get_legal_template data' clause.
Proof.
  intros (Ht & Ha & Hb & Hd & Hj & Hs).
  destruct (decide (contract_type data ∈ contract_types)) as [Hin|Hout].
  - unfold type_specific in Hs. rewrite <- Ht in Hs.
    apply contract_types_cases in Hin.
    unfold get_legal_template. cbv zeta. rewrite <- Ht, <- Ha, <- Hb, <- Hd, <- Hj.
    destruct Hin as [E|[E|[E|[E|[E|[E|[E|[E|E]]]]]]]]; rewrite E in Hs |- *;
      cbv - [goods_description position property_address scope] in Hs;
      do 2 dict_lookup_known; by rewrite ?Hs.
  - rewrite !get_legal_template_unknown; [done| by rewrite <- Ht | done].
Qed.



(** The outcome of the [try] block when one of its first four steps raises. *)
Lemma try_refinement_raises (w : World) (data : ContractRequest) (fs fs' : files)
    (raw : str) (e : exn) :
  retrieve_clause (clause_query data) (contract_type data) = Ok raw ->
  refine_clause_with_legal_expertise w raw (contract_type data) fs = (Raise e, fs') ->
  generate_contract_try w data fs = (Raise e, fs').
Proof.
  intros Hraw Href. unfold generate_contract_try.
  rewrite (bind_Ok _ _ fs fs raw) by (rewrite lift_eq, Hraw; reflexivity).
  by apply bind_Raise.
Qed.

Lemma try_rendering_raises (w : World) (data : ContractRequest) (fs : files)
    (raw refined : str) (e : exn) :
  retrieve_clause (clause_query data) (contract_type data) = Ok raw ->
  refine_clause_with_legal_expertise w raw (contract_type data) fs = (Ok refined, fs) ->
  fpdf_raises w (pdf_document (get_legal_template data refined)) (pdf_name w) = Some e ->
  generate_contract_try w data fs = (Raise e, fs).
Proof.
  intros Hraw Href Hpdf. unfold generate_contract_try.
  rewrite (bind_Ok _ _ fs fs raw) by (rewrite lift_eq, Hraw; reflexivity).
  rewrite (bind_Ok _ _ fs fs refined) by exact Href.
  cbv zeta. fold (pdf_name w). apply bind_Raise.
  unfold save_as_pdf. by rewrite Hpdf.
Qed.

Lemma try_opening_raises (w : World) (data : ContractRequest) (fs : files)
    (raw refined : str) (e : exn) :
  retrieve_clause (clause_query data) (contract_type data) = Ok raw ->
  refine_clause_with_legal_expertise w raw (contract_type data) fs = (Ok refined, fs) ->
  fpdf_raises w (pdf_document (get_legal_template data refined)) (pdf_name w) = None ->
  open_raises w (pdf_name w) = Some e ->
  generate_contract_try w data fs =
  (Raise e, <[pdf_name w := pdf_document (get_legal_template data refined)]> fs).
Proof.
  intros Hraw Href Hpdf Hopen. unfold generate_contract_try.
  rewrite (bind_Ok _ _ fs fs raw) by (rewrite lift_eq, Hraw; reflexivity).
  rewrite (bind_Ok _ _ fs fs refined) by exact Href.
  cbv zeta. fold (pdf_name w).
  rewrite (bind_Ok _ _ fs
             (<[pdf_name w := pdf_document (get_legal_template data refined)]> fs) tt)
    by (unfold save_as_pdf; rewrite Hpdf; reflexivity).
  apply bind_Raise. unfold open_rb. by rewrite lookup_insert_eq, Hopen.
Qed.

Lemma try_upload_raises (w : World) (data : ContractRequest) (fs : files)
    (raw refined : str) (e : exn) :
  retrieve_clause (clause_query data) (contract_type data) = Ok raw ->
  refine_clause_with_legal_expertise w raw (contract_type data) fs = (Ok refined, fs) ->
  fpdf_raises w (pdf_document (get_legal_template data refined)) (pdf_name w) = None ->
  open_raises w (pdf_name w) = None ->
  requests_post w (py "https://store1.gofile.io/uploadFile") (pdf_name w)
    (pdf_document (get_legal_template data refined)) = Raise e ->
  generate_contract_try w data fs =
  (Raise e, <[pdf_name w := pdf_document (get_legal_template data refined)]> fs).
Proof.
  intros Hraw Href Hpdf Hopen Hpost. unfold generate_contract_try.
  rewrite (bind_Ok _ _ fs fs raw) by (rewrite lift_eq, Hraw; reflexivity).
  rewrite (bind_Ok _ _ fs fs refined) by exact Href.
  cbv zeta. fold (pdf_name w).
  rewrite (bind_Ok _ _ fs
             (<[pdf_name w := pdf_document (get_legal_template data refined)]> fs) tt)
    by (unfold save_as_pdf; rewrite Hpdf; reflexivity).
  rewrite (bind_Ok _ _ _ _ (pdf_document (get_legal_template data refined)))
    by (unfold open_rb; rewrite lookup_insert_eq, Hopen; reflexivity).
  apply bind_Raise. by rewrite lift_eq, Hpost.
Qed.

(** X16: the response and the files written depend on the request only
    through the contract type, the two parties, the duration, the
    jurisdiction and the optional field of the type: two requests that agree
    on these, whatever their clause queries and other optional fields, are
    answered alike. *)
Theorem generate_contract_reads_only_template_inputs
    (w : World) (data data' : ContractRequest) (fs : files) :
  same_template_inputs data data' ->
  generate_contract w data fs = generate_contract w data' fs.
Proof.
  intros Hsame.
  assert (Htext : forall clause,
            get_legal_template data' clause = get_legal_template data clause)
    by (intros clause; symmetry; by apply get_legal_template_ext).
  destruct Hsame as (Ht & _).
  assert (Htry : generate_contract_try w data fs = generate_contract_try w data' fs);
    [|unfold generate_contract; by rewrite Htry].
  destruct (retrieve_clause_Ok (clause_query data) (contract_type data))
    as (raw & _ & _ & Hraw).
  assert (Hraw' : retrieve_clause (clause_query data') (contract_type data') = Ok raw)
    by (rewrite <- Ht; exact Hraw).
  destruct (refine_clause_with_legal_expertise w raw (contract_type data) fs)
    as [[refined|e] fs1] eqn:Href.
  2: { rewrite (try_refinement_raises _ _ _ _ _ _ Hraw Href).
       symmetry. apply (try_refinement_raises _ _ _ _ raw); [done|].
       by rewrite <- Ht. }
  pose proof (refine_clause_files _ _ _ _ _ _ Href) as ->.
  assert (Href' : refine_clause_with_legal_expertise w raw (contract_type data') fs
                  = (Ok refined, fs)) by (by rewrite <- Ht).
  destruct (fpdf_raises w (pdf_document (get_legal_template data refined))
              (pdf_name w)) as [e|] eqn:Hpdf.
  { rewrite (try_rendering_raises _ _ _ _ _ _ Hraw Href Hpdf).
    symmetry. apply (try_rendering_raises _ _ _ raw refined); [done|done|].
    by rewrite Htext. }
  destruct (open_raises w (pdf_name w)) as [e|] eqn:Hopen.
  { rewrite (try_opening_raises _ _ _ _ _ _ Hraw Href Hpdf Hopen).
    rewrite <- (Htext refined).
    symmetry. apply (try_opening_raises _ _ _ raw refined); [done|done| |done].
    by rewrite Htext. }
  destruct (requests_post w (py "https://store1.gofile.io/uploadFile") (pdf_name w)
              (pdf_document (get_legal_template data refined)))
    as [upload_res|e] eqn:Hpost.
  - assert (Hreach : reaches_upload w data fs refined upload_res)
      by (exists raw; auto).
    assert (Hreach' : reaches_upload w data' fs refined upload_res)
      by (exists raw; rewrite Htext; auto).
    rewrite (generate_contract_try_reply _ _ _ _ _ Hreach),
      (generate_contract_try_reply _ _ _ _ _ Hreach').
    by rewrite Htext.
  - rewrite (try_upload_raises _ _ _ _ _ _ Hraw Href Hpdf Hopen Hpost).
    rewrite <- (Htext refined).
    symmetry. apply (try_upload_raises _ _ _ raw refined); try done;
      by rewrite Htext.
Qed.

Lemma generate_contract_reads_only_template_inputs_witness :
  same_template_inputs request_A request_A_variant /\
  generate_contract (stub_world (Ok reply_A)) request_A ∅ =
  generate_contract (stub_world (Ok reply_A)) request_A_variant ∅.
Proof.
  assert (H : same_template_inputs request_A request_A_variant)
    by (repeat split; reflexivity).
  split; [exact H|].
  exact (generate_contract_reads_only_template_inputs _ _ _ ∅ H).
Defined.

(** ** The layout of the template *)

Lemma head_split_starts_with (p s : str) (sep : N) :
  starts_with (p ++ [sep]) s = true -> sep ∉ p ->
  head (split s sep) = Some p.
Proof.
  intros Hs%starts_with_inv Hp. rewrite Hs, <- app_assoc. simpl app.
  by rewrite split_until_sep.
Qed.

Lemma split_no_sep (p : str) (sep : N) : sep ∉ p -> split p sep = [p].
Proof.
  intros Hp. rewrite <- (app_nil_r p) at 1.
  rewrite split_app_no_sep by done. simpl. by rewrite app_nil_r.
Qed.

Lemma last_split_sep (x p : str) (sep : N) :
  sep ∉ p -> last (split (x ++ sep :: p) sep) = Some p.
Proof.
  intros Hp. destruct (split_after_sep x p sep) as (l & ls & ->).
  rewrite split_no_sep by done. by rewrite last_snoc.
Qed.

Lemma count_app (c : N) (s1 s2 : str) :
  count c (s1 ++ s2) = (count c s1 + count c s2)%nat.
Proof. induction s1 as [|x s1 IH]; simpl; [done|]. rewrite IH. lia. Qed.

Lemma count_zero (c : N) (s : str) : count c s = 0%nat <-> c ∉ s.
Proof.
  induction s as [|x s IH]; simpl.
  - split; [by intros _ ?%elem_of_nil | done].
  - rewrite not_elem_of_cons, <- IH.
    destruct (N.eqb_spec x c) as [->|Hx].
    + split; [lia | by intros [? _]].
    + split; [intros H; split; [congruence | lia] | intros [_ H]; lia].
Qed.

(** X17: for each of the nine contract types the first line of the
    template is the title of the type, and when the party names hold no
    line feed the last line is the signature line that names them. *)
Theorem template_first_and_last_line (data : ContractRequest) (clause : str) :
  contract_type data ∈ contract_types ->
  head (split (get_legal_template data clause) LF)
    = Some (title (contract_type data)) /\
  (LF ∉ party_a data -> LF ∉ party_b data ->
   last (split (get_legal_template data clause) LF)
     = Some (py "Signed: " ++ party_a data ++ py ", " ++ party_b data)).
Proof.
  intros Ht%contract_types_cases.
  unfold get_legal_template. cbv zeta.
  destruct Ht as [E|[E|[E|[E|[E|[E|[E|[E|E]]]]]]]]; rewrite E;
    dict_lookup_known; unfold default, from_option, id; (split;
    [ apply head_split_starts_with;
      [vm_compute; reflexivity | apply (bool_decide_unpack _); by vm_compute]
    | intros Ha Hb;
      try change (py ".\n\nSigned: ") with (py ".\n" ++ LF :: py "Signed: ");
      try change (py "\n\nSigned: ") with (py "\n" ++ LF :: py "Signed: ");
      rewrite <- !app_assoc, <- app_comm_cons, !app_assoc;
      rewrite last_split_sep;
      [ by rewrite <- !app_assoc
      | rewrite !not_elem_of_app; repeat split; try done;
        apply (bool_decide_unpack _); by vm_compute ] ]).
Qed.

Lemma template_first_and_last_line_witness :
  contract_type request_A ∈ contract_types /\
  head (split (get_legal_template request_A refined_A) LF)
    = Some (py "NON-DISCLOSURE AGREEMENT") /\
  last (split (get_legal_template request_A refined_A) LF)
    = Some (py "Signed: Acme Inc, Beta LLC").
Proof.
  assert (H : contract_type request_A ∈ contract_types)
    by (apply (bool_decide_unpack _); by vm_compute).
  split; [exact H|].
  destruct (template_first_and_last_line request_A refined_A H) as [Hh Hl].
  split; [exact Hh|].
  apply Hl; apply (bool_decide_unpack _); by vm_compute.
Defined.

(** Evaluates the number of line feeds of the literal pieces of a text. *)
Ltac count_literals :=
  repeat match goal with
    | |- context [count LF (py ?s)] =>
        let n := eval vm_compute in (count LF (py s)) in
        change (count LF (py s)) with n
    end.

(** X18: for each of the nine contract types the rendered document has
    ten paragraphs, and one more for every line feed in the values that the
    template substitutes, the party names counting twice. *)
Theorem template_paragraph_count (data : ContractRequest) (clause : str) :
  contract_type data ∈ contract_types ->
  length (paragraphs (pdf_document (get_legal_template data clause))) =
  (10 + 2 * count LF (party_a data) + 2 * count LF (party_b data)
   + count LF (duration data) + count LF clause + count LF (jurisdiction data)
   + count LF (fmt (type_specific data)))%nat.
Proof.
  intros Ht%contract_types_cases. rewrite length_paragraphs.
  unfold get_legal_template. cbv zeta.
  destruct Ht as [E|[E|[E|[E|[E|[E|[E|[E|E]]]]]]]];
    [ assert (type_specific data = None) as ->
        by (unfold type_specific; rewrite E; reflexivity)
    | assert (type_specific data = None) as ->
        by (unfold type_specific; rewrite E; reflexivity)
    | assert (type_specific data = None) as ->
        by (unfold type_specific; rewrite E; reflexivity)
    | assert (type_specific data = None) as ->
        by (unfold type_specific; rewrite E; reflexivity)
    | assert (type_specific data = goods_description data) as ->
        by (unfold type_specific; rewrite E; reflexivity)
    | assert (type_specific data = position data) as ->
        by (unfold type_specific; rewrite E; reflexivity)
    | assert (type_specific data = property_address data) as ->
        by (unfold type_specific; rewrite E; reflexivity)
    | assert (type_specific data = None) as ->
        by (unfold type_specific; rewrite E; reflexivity)
    | assert (type_specific data = scope data) as ->
        by (unfold type_specific; rewrite E; reflexivity) ];
    rewrite E; dict_lookup_known; unfold default, from_option, id;
    rewrite !count_app; change (fmt None) with (py "None");
    count_literals; lia.
Qed.

Lemma template_paragraph_count_witness :
  contract_type request_A ∈ contract_types /\
  length (paragraphs (pdf_document (get_legal_template request_A refined_A)))
    = 10%nat.
Proof.
  assert (H : contract_type request_A ∈ contract_types)
    by (apply (bool_decide_unpack _); by vm_compute).
  split; [exact H|].
  exact (template_paragraph_count request_A refined_A H).
Defined.

(** ** When a request succeeds *)

(** X19: a request is answered with the contract exactly when the
    service returns a first choice with a content for the prompt of the
    clause of the type, the rendering and the opening of the file raise
    nothing, and the upload is answered with HTTP 200, a status field "ok"
    and a download page; the contract is then the template filled with the
    stripped content, the link is the download page, and the rendered file
    is left under its name. *)
Theorem generate_contract_succeeds_iff (w : World) (data : ContractRequest)
    (fs fs' : files) (body : gmap str json) :
  generate_contract w data fs = (Return body, fs') <->
  exists raw_clause prompt text others upload_res url,
    retrieve_clause (clause_query data) (contract_type data) = Ok raw_clause /\
    refinement_prompt raw_clause (contract_type data) = Ok prompt /\
    completions_create w (request_for prompt) = Ok (Some text :: others) /\
    fpdf_raises w (pdf_document (get_legal_template data (strip text))) (pdf_name w)
      = None /\
    open_raises w (pdf_name w) = None /\
    requests_post w (py "https://store1.gofile.io/uploadFile") (pdf_name w)
      (pdf_document (get_legal_template data (strip text))) = Ok upload_res /\
    status_code upload_res = 200%Z /\
    status_field_ok upload_res /\
    download_page upload_res url /\
    body = success_body (get_legal_template data (strip text)) url /\
    fs' = <[pdf_name w := pdf_document (get_legal_template data (strip text))]> fs.
Proof.
  rewrite generate_contract_Return. split.
  - intros (refined & upload_res & (raw & Hraw & Href & Hpdf & Hopen & Hpost) & Hh)
      %generate_contract_try_Ok.
    apply handle_reply_Ok in Hh as (Hs & Hok & url & Hurl & -> & ->).
    rewrite refine_clause_unfold in Href.
    destruct (refinement_prompt raw (contract_type data)) as [prompt|e] eqn:Hp;
      [|by inversion Href].
    destruct (completions_create w (request_for prompt))
      as [[|[text|] others]|e] eqn:Hc; try by inversion Href.
    assert (strip text = refined) as <- by (by inversion Href).
    exists raw, prompt, text, others, upload_res, url. auto 12.
  - intros (raw & prompt & text & others & upload_res & url & Hraw & Hp & Hc
            & Hpdf & Hopen & Hpost & Hs & Hok & Hurl & -> & ->).
    assert (Hreach : reaches_upload w data fs (strip text) upload_res).
    { exists raw. split; [exact Hraw|]. split; [|auto].
      by rewrite refine_clause_unfold, Hp, Hc. }
    rewrite (generate_contract_try_reply _ _ _ _ _ Hreach).
    apply handle_reply_Ok. eauto 10.
Qed.
